(** * exdicom: the workflow orchestration engine

    A shallow embedding of [main.py] (class [DicomWorkflowManager]) and of
    [webhook_server.py], and the properties of the orchestration engine
    that the design document states about them.

    Conventions of the embedding.
    - Python integers are [Z].  The only floating point computation the
      engine performs on data is the success rate [(successful /
      total_files) * 100]; it is computed here over the rationals [Q], so
      rounding of IEEE doubles is not modelled.
    - A method that performs effects is a computation in the monad [M]: it
      produces the sequence of observable events (collaborator calls,
      sleeps, warning and error log lines) together with either a value or
      a raised exception.  [logger.info] lines are not recorded.  A log line
      built from an f-string is recorded by its fixed text, followed by the
      interpolated text where that text is a string of the model.
    - The external collaborators (downloader, processor, sender, transfer
      manager) are not part of the repository sources that are embedded;
      each call to one of them is answered by an oracle that says whether
      the call returns (and what) or raises.
    - [time.sleep] raises on a negative length; what the platform clock
      does with a non-negative length is answered by an oracle as well.
    - A header value is a string of 8-bit characters; the characters below
      128 are the ASCII ones. *)

From Stdlib Require Import ZArith QArith Bool List String Ascii Lia.
Import ListNotations.

Local Open Scope string_scope.
Local Open Scope list_scope.
Local Open Scope Z_scope.

(** ** Results, events and the effect monad *)

(** The outcome of a call: a value, or a raised exception ([str(e)]). *)
Inductive result (A : Type) : Type :=
| Ok (a : A)
| Raise (e : string).
Arguments Ok {A} a.
Arguments Raise {A} e.

(** The dictionary [stats] built by [run_sheets_workflow] and
    [run_local_workflow].  [pending] is [stats['pending_applications']] in
    the first and [stats['downloaded_files']] (equal to
    [stats['total_files']]) in the second.  The time stamps are left out. *)
Record cycle_stats : Type := mk_stats {
  pending : Z;
  processed_files : Z;
  successful_transfers : Z;
  failed_transfers : Z
}.

(** A JSON value, as [request.get_json()] returns it (numbers are kept to
    the integers). *)
#[local] Set Warnings "-register-all".
Inductive json : Type :=
| JNull
| JBool (b : bool)
| JNum (n : Z)
| JStr (s : string)
| JArr (items : list json)
| JObj (members : list (string * json)).

Inductive event : Type :=
| LogError (msg : string)
| LogWarning (msg : string)
| FindFileInDrive
| DownloadFileFromDrive
| CreateFileInfo
| ProcessFile
| SendBatch (attempt : Z)
| UploadBatchViaApi (attempt : Z)
| Sleep (seconds : Z)
| Notify (subject : string)
| UpdateTransmissionTime
| DeleteDriveFile
| CleanupLocalFile
| RmtreeOutputDirectory
| CleanProcessingFolder
| CompleteTransferProcess
| DeleteSourceFile
| TestConnection
| GetPendingApplications
| DownloadPendingFiles
| CleanDownloads
| CleanupWorkDirectory
| LogStatistics (stats : cycle_stats)
| StartThread (data : json).

(** A computation: the events it produced, in order, and how it ended. *)
Definition M (A : Type) : Type := (list event * result A)%type.

Definition ret {A : Type} (a : A) : M A := ([], Ok a).

Definition bind {A B : Type} (m : M A) (k : A -> M B) : M B :=
  match m with
  | (tr, Ok a) => let (tr', r) := k a in (tr ++ tr', r)
  | (tr, Raise e) => (tr, Raise e)
  end.

Definition raise {A : Type} (e : string) : M A := ([], Raise e).

(** One observable step that cannot fail (a log line, a sleep). *)
Definition emit (e : event) : M unit := ([e], Ok tt).

(** A call to a collaborator: the call is observed, then it returns or
    raises as the oracle [r] says. *)
Definition call {A : Type} (e : event) (r : result A) : M A := ([e], r).

(** [try: m except Exception as e: h e]. *)
Definition try_except {A : Type} (m : M A) (h : string -> M A) : M A :=
  match m with
  | (tr, Ok a) => (tr, Ok a)
  | (tr, Raise e) => let (tr', r) := h e in (tr ++ tr', r)
  end.

(** [try: m finally: f]: [f] runs however [m] ends; an exception raised by
    [f] replaces the outcome of [m]. *)
Definition try_finally {A : Type} (m : M A) (f : M unit) : M A :=
  let (tr, r) := m in
  match f with
  | (tr', Ok _) => (tr ++ tr', r)
  | (tr', Raise e) => (tr ++ tr', Raise e)
  end.

Definition trace {A : Type} (m : M A) : list event := fst m.
Definition outcome {A : Type} (m : M A) : result A := snd m.

Declare Scope monad_scope.
Delimit Scope monad_scope with monad.
Notation "x <- c1 ;; c2" := (bind c1 (fun x => c2))
  (at level 61, c1 at next level, right associativity) : monad_scope.
Notation "c1 ;;; c2" := (bind c1 (fun _ => c2))
  (at level 61, right associativity) : monad_scope.
Local Open Scope monad_scope.

(** ** Data of [main.py] *)

(** The dictionary returned by [sender.send_batch] and
    [sender.upload_batch_via_api]. *)
Record send_result : Type := mk_send_result {
  successful : Z;
  total_files : Z;
  failed : Z;
  failed_files : list string
}.

(** The dictionary returned by [processor.process_file];
    [processed_paths] is the list [[item['output_path'] for item in
    processing_result['processed_files']]]. *)
Record processing_result : Type := mk_processing_result {
  success : bool;
  error_message : option string;
  processed_paths : list string;
  output_directory : option string
}.

(** [self.config['processing']] and the two mode switches. *)
Record config : Type := mk_config {
  max_retry_attempts : Z;
  retry_delay_seconds : Z;
  use_orthanc : bool;
  use_sheets_mode : bool
}.

(** The oracles answering the collaborator calls made while one item is
    processed.  The sender is called once per attempt; its oracle is
    indexed by the attempt number, starting at 0; the one of the notifier
    is indexed by the subject of the notification.  [clock_sleep d] is what
    the platform does when asked to sleep a non-negative length [d]: it
    sleeps, or it refuses a length its clock cannot hold ([OverflowError],
    [OSError]). *)
Record collaborators : Type := mk_collaborators {
  find_file_in_drive : result (option string);
  download_file_from_drive : result (option string);
  create_file_info_for_processing : result unit;
  process_file : result processing_result;
  send_batch : Z -> result send_result;
  upload_batch_via_api : Z -> result send_result;
  update_transmission_time : result bool;
  delete_drive_file_with_user_auth : result unit;
  cleanup_local_file : result unit;
  rmtree_output_directory : result unit;
  clean_processing_folder : result unit;
  complete_transfer_process : result bool;
  delete_source_file : result unit;
  send_error_notification : string -> result unit;
  clock_sleep : Z -> result unit
}.

(** Python truthiness of an optional string ([None] and [''] are falsy). *)
Definition truthy (o : option string) : bool :=
  match o with
  | None => false
  | Some s => negb (String.eqb s "")
  end.

(** ** The judgement of one transmit attempt *)

(** How the [if]/[elif]/[else] chain after a send classifies its result. *)
Inductive verdict : Type :=
| AllSent          (* successful == total_files: send_success, break *)
| MostSent         (* success rate >= 80: send_success, break *)
| PartialFailure   (* some files sent, rate below 80: next attempt *)
| SendFailed.      (* nothing sent: wait, next attempt *)

Definition satisfied (v : verdict) : bool :=
  match v with
  | AllSent | MostSent => true
  | PartialFailure | SendFailed => false
  end.

(** [success_rate = (send_result['successful'] / send_result['total_files'])
    * 100]; Python raises [ZeroDivisionError] on a zero divisor. *)
Definition success_rate (r : send_result) : result Q :=
  if total_files r =? 0 then Raise "division by zero"
  else Ok ((inject_Z (successful r) / inject_Z (total_files r)) * 100)%Q.

(** [process_sheets_application], lines 391-417. *)
Definition sheets_verdict (r : send_result) : result verdict :=
  if successful r =? total_files r then Ok AllSent
  else if successful r >? 0 then
    match success_rate r with
    | Ok rate => if Qle_bool 80 rate then Ok MostSent else Ok PartialFailure
    | Raise e => Raise e
    end
  else Ok SendFailed.

(** [process_single_workflow], lines 256-264. *)
Definition local_verdict (r : send_result) : result verdict :=
  if successful r =? total_files r then Ok AllSent else Ok SendFailed.

(** The two per-item code paths that wrap the transmit stage. *)
Inductive path : Type :=
| SheetsPath   (* process_sheets_application: sheets cycle and push *)
| LocalPath.   (* process_single_workflow: local poll *)

Definition path_verdict (p : path) (r : send_result) : result verdict :=
  match p with
  | SheetsPath => sheets_verdict r
  | LocalPath => local_verdict r
  end.

(** The attempt is judged "send satisfied" by the code of path [p]. *)
Definition judged_satisfied (p : path) (r : send_result) : Prop :=
  exists v, path_verdict p r = Ok v /\ satisfied v = true.

(** The policy as the design document words it: satisfied when
    [successful == total], or when [successful / total >= 0.80]. *)
Definition spec_send_satisfied (r : send_result) : Prop :=
  successful r = total_files r \/
  (8 # 10 <= inject_Z (successful r) / inject_Z (total_files r))%Q.

(** ** The per-item orchestration of [main.py] *)

(** One row of the sheet, or the dictionary [process_upload_async] builds
    from a notification. *)
Record application : Type := mk_application {
  row_number : json;
  creation_time : json;
  hospital_name : json;
  exam_type : json;
  uploader_name : json;
  uploader_phone : json;
  uploader_email : json;
  filename : json;
  identifier : json;
  transmission_time : json
}.

(** An entry of [downloader.download_pending_files()] in the format the
    downloader documents: the keys the orchestrator reads are [record],
    holding an [id], and [original_filename]. *)
Record file_info : Type := mk_file_info {
  record_id : json;
  original_filename : string
}.

(** The entry as the dictionary that is passed around. *)
Definition file_info_dict (fi : file_info) : json :=
  JObj [("record", JObj [("id", record_id fi)]);
        ("original_filename", JStr (original_filename fi))].
Coercion file_info_dict : file_info >-> json.

Definition lift {A : Type} (r : result A) : M A := ([], r).

Definition when (b : bool) (m : M unit) : M unit := if b then m else ret tt.

Fixpoint for_each {A : Type} (f : A -> M unit) (l : list A) : M unit :=
  match l with
  | [] => ret tt
  | x :: l' => f x ;;; for_each f l'
  end.

Definition is_empty {A : Type} (l : list A) : bool :=
  match l with
  | [] => true
  | _ :: _ => false
  end.

(** ** Python operators on a JSON value or a dictionary *)

(** [not data]. *)
Definition py_not (d : json) : bool :=
  match d with
  | JNull => true
  | JBool b => negb b
  | JNum n => n =? 0
  | JStr s => String.eqb s ""
  | JArr items => is_empty items
  | JObj members => is_empty members
  end.

Fixpoint lookup (k : string) (members : list (string * json)) : option json :=
  match members with
  | [] => None
  | (k', v) :: rest => if String.eqb k k' then Some v else lookup k rest
  end.

(** [needle in hay] on strings. *)
Fixpoint str_contains (needle hay : string) : bool :=
  String.prefix needle hay ||
  match hay with
  | EmptyString => false
  | String _ hay' => str_contains needle hay'
  end.

(** [k in d]: key membership on a dictionary, element membership on a
    list, substring test on a string, [TypeError] otherwise. *)
Definition py_in (k : string) (d : json) : result bool :=
  match d with
  | JObj members =>
    Ok (match lookup k members with Some _ => true | None => false end)
  | JArr items =>
    Ok (existsb
          (fun x => match x with JStr s => String.eqb s k | _ => false end)
          items)
  | JStr s => Ok (str_contains k s)
  | JNull | JBool _ | JNum _ => Raise "argument is not iterable"
  end.

(** [d[k]] for a string [k]. *)
Definition py_getitem (d : json) (k : string) : result json :=
  match d with
  | JObj members =>
    match lookup k members with
    | Some v => Ok v
    | None => Raise ("'" ++ k ++ "'")%string
    end
  | JArr _ => Raise "list indices must be integers or slices, not str"
  | JStr _ => Raise "string indices must be integers, not 'str'"
  | JNull | JBool _ | JNum _ => Raise "object is not subscriptable"
  end.

(** [d.get(k, '')]. *)
Definition py_get (d : json) (k : string) : result json :=
  match d with
  | JObj members =>
    match lookup k members with
    | Some v => Ok v
    | None => Ok (JStr "")
    end
  | _ => Raise "object has no attribute 'get'"
  end.

(** [processing_result.get('error_message', 'Unknown error')]. *)
Definition error_text (pr : processing_result) : string :=
  match error_message pr with
  | Some msg => msg
  | None => "Unknown error"
  end.

(** Lines 420-425: the first three failed files are listed. *)
Definition log_failed_files (fs : list string) : M unit :=
  when (negb (is_empty fs))
    (emit (LogWarning "Failed files:") ;;;
     for_each (fun f => emit (LogWarning ("  - " ++ f)%string)) (firstn 3 fs) ;;;
     when (3 <? Z.of_nat (List.length fs)) (emit (LogWarning "  ... and more files"))).

(** [time.sleep(seconds)] (lines 268 and 429): [ValueError] for a negative
    length, otherwise what the platform clock does; the event [Sleep]
    records a sleep that took place. *)
Definition time_sleep (env : collaborators) (seconds : Z) : M unit :=
  if seconds <? 0 then raise "sleep length must be non-negative"
  else
    match clock_sleep env seconds with
    | Ok _ => emit (Sleep seconds)
    | Raise e => raise e
    end.

(** Lines 386-389: the send method is chosen by the mode. *)
Definition sheets_send (cfg : config) (env : collaborators) (attempt : Z)
  : M send_result :=
  if use_orthanc cfg
  then call (UploadBatchViaApi attempt) (upload_batch_via_api env attempt)
  else call (SendBatch attempt) (send_batch env attempt).

(** The loop [for attempt in range(max_retries)] of
    [process_sheets_application] (lines 376-429), from iteration [attempt]
    on, with [n] iterations left.  The value is [send_success]. *)
Fixpoint sheets_send_loop (cfg : config) (env : collaborators)
  (n : nat) (attempt : Z) : M bool :=
  match n with
  | O => ret false
  | S n' =>
    r <- sheets_send cfg env attempt ;;
    v <- lift (sheets_verdict r) ;;
    match v with
    | AllSent => ret true
    | MostSent => ret true
    | PartialFailure =>
      emit (LogWarning "Partial send failure") ;;;
      sheets_send_loop cfg env n' (attempt + 1)
    | SendFailed =>
      emit (LogWarning "File send failed") ;;;
      log_failed_files (failed_files r) ;;;
      when (attempt <? max_retry_attempts cfg - 1)
        (time_sleep env (retry_delay_seconds cfg)) ;;;
      sheets_send_loop cfg env n' (attempt + 1)
    end
  end.

(** The loop of [process_single_workflow] (lines 251-268). *)
Fixpoint local_send_loop (cfg : config) (env : collaborators)
  (n : nat) (attempt : Z) : M bool :=
  match n with
  | O => ret false
  | S n' =>
    r <- call (SendBatch attempt) (send_batch env attempt) ;;
    v <- lift (local_verdict r) ;;
    if satisfied v then ret true
    else
      emit (LogWarning "Send failed") ;;;
      when (attempt <? max_retry_attempts cfg - 1)
        (time_sleep env (retry_delay_seconds cfg)) ;;;
      local_send_loop cfg env n' (attempt + 1)
  end.

Definition send_loop (p : path) (cfg : config) (env : collaborators)
  : M bool :=
  match p with
  | SheetsPath => sheets_send_loop cfg env (Z.to_nat (max_retry_attempts cfg)) 0
  | LocalPath => local_send_loop cfg env (Z.to_nat (max_retry_attempts cfg)) 0
  end.

(** [_delete_drive_file_with_user_auth] (lines 662-724): whatever goes
    wrong inside is caught and logged as a warning. *)
Definition _delete_drive_file_with_user_auth (env : collaborators) : M unit :=
  try_except
    (call DeleteDriveFile (delete_drive_file_with_user_auth env))
    (fun e => emit (LogWarning ("Error deleting Drive file: " ++ e)%string)).

(** Lines 462-469 and 292-299: the processing directory is emptied. *)
Definition clean_processing_directory (env : collaborators) : M unit :=
  try_except
    (call CleanProcessingFolder (clean_processing_folder env))
    (fun e => emit (LogWarning ("Error cleaning processing directory: " ++ e)%string)).

(** Steps 6 to 8 of [process_sheets_application] (lines 436-481), reached
    after a satisfied send. *)
Definition sheets_after_send (env : collaborators) (pr : processing_result)
  : M bool :=
  updated <- call UpdateTransmissionTime (update_transmission_time env) ;;
  when (negb updated)
    (emit (LogWarning
       "Update transmission time failed, but files were sent successfully")) ;;;
  try_except
    (_delete_drive_file_with_user_auth env)
    (fun e => emit (LogWarning ("Could not delete Google Drive file: " ++ e)%string)) ;;;
  call CleanupLocalFile (cleanup_local_file env) ;;;
  match output_directory pr with
  | Some _ =>
    try_except
      (call RmtreeOutputDirectory (rmtree_output_directory env))
      (fun e =>
         emit (LogWarning ("Error cleaning processing work directory: " ++ e)%string))
  | None => ret tt
  end ;;;
  clean_processing_directory env ;;;
  ret true.

(** [process_sheets_application] (lines 315-485). *)
Definition process_sheets_application (cfg : config) (env : collaborators)
  (app : application) : M bool :=
  try_except
    (file_id <- call FindFileInDrive (find_file_in_drive env) ;;
     if negb (truthy file_id) then
       emit (LogError "File not found in Google Drive") ;;;
       ret false
     else
     local_path <- call DownloadFileFromDrive (download_file_from_drive env) ;;
     if negb (truthy local_path) then
       emit (LogError "File download failed") ;;;
       ret false
     else
     call CreateFileInfo (create_file_info_for_processing env) ;;;
     pr <- call ProcessFile (process_file env) ;;
     if negb (success pr) then
       emit (LogError ("File processing failed: " ++ error_text pr)%string) ;;;
       call CleanupLocalFile (cleanup_local_file env) ;;;
       ret false
     else
     if is_empty (processed_paths pr) then
       emit (LogError "No files available to send") ;;;
       call CleanupLocalFile (cleanup_local_file env) ;;;
       ret false
     else
     send_success <- send_loop SheetsPath cfg env ;;
     if negb send_success then
       emit (LogError "File send failed after all attempts") ;;;
       call CleanupLocalFile (cleanup_local_file env) ;;;
       ret false
     else
     sheets_after_send env pr)
    (fun e =>
       emit (LogError ("Error processing application: " ++ e)%string) ;;;
       ret false).

(** Step 3 of [process_single_workflow] (lines 279-304), reached after a
    satisfied send. *)
Definition local_after_send (env : collaborators) : M bool :=
  completed <- call CompleteTransferProcess (complete_transfer_process env) ;;
  if completed then
    try_except
      (call DeleteSourceFile (delete_source_file env))
      (fun e => emit (LogWarning ("Error deleting source file: " ++ e)%string)) ;;;
    clean_processing_directory env ;;;
    ret true
  else
    emit (LogError "Transfer process completion failed") ;;;
    ret false.

(** [process_single_workflow] (lines 211-313).  The reads of lines 221-222
    come before the [try]: what they raise leaves the function. *)
Definition process_single_workflow (cfg : config) (env : collaborators)
  (file_info : json) : M bool :=
  record <- lift (py_getitem file_info "record") ;;
  lift (py_getitem record "id") ;;;
  lift (py_getitem file_info "original_filename") ;;;
  try_except
    (pr <- call ProcessFile (process_file env) ;;
     if negb (success pr) then
       emit (LogError ("File processing failed: " ++ error_text pr)%string) ;;;
       call (Notify "File processing failed")
            (send_error_notification env "File processing failed") ;;;
       ret false
     else
     if is_empty (processed_paths pr) then
       emit (LogError "No files available to send") ;;;
       ret false
     else
     send_success <- send_loop LocalPath cfg env ;;
     if negb send_success then
       emit (LogError "File send failed after all attempts") ;;;
       call (Notify "DICOM file send failed")
            (send_error_notification env "DICOM file send failed") ;;;
       ret false
     else
     local_after_send env)
    (fun e =>
       emit (LogError ("Error processing workflow: " ++ e)%string) ;;;
       call (Notify "Workflow execution error")
            (send_error_notification env "Workflow execution error") ;;;
       ret false).

(** ** The cycle drivers of [main.py] *)

(** The oracles of one cycle; [item_collaborators i] answers the calls made
    while the [i]-th pending item of the cycle is processed. *)
Record cycle_env : Type := mk_cycle_env {
  test_connection : result bool;
  get_pending_applications : result (list application);
  download_pending_files : result (list file_info);
  item_collaborators : nat -> collaborators;
  has_clean_downloads : bool;
  clean_downloads : result unit;
  cleanup_work_directory : result unit;
  system_error_notification : result unit
}.

(** The body of a [try] block that updates the dictionary [stats] in place:
    its events, the dictionary as the block leaves it, and how it ended. *)
Definition cycle_step : Type := (list event * (cycle_stats * result unit))%type.

Definition set_pending (stats : cycle_stats) (n : Z) : cycle_stats :=
  mk_stats n (processed_files stats) (successful_transfers stats)
    (failed_transfers stats).

(** Lines 527-532 and 614-619. *)
Definition count_item (stats : cycle_stats) (ok : bool) : cycle_stats :=
  let stats1 :=
    if ok
    then mk_stats (pending stats) (processed_files stats)
           (successful_transfers stats + 1) (failed_transfers stats)
    else mk_stats (pending stats) (processed_files stats)
           (successful_transfers stats) (failed_transfers stats + 1) in
  mk_stats (pending stats1) (processed_files stats1 + 1)
    (successful_transfers stats1) (failed_transfers stats1).

(** The [for] loops over the pending items (lines 522-532 and 609-619);
    [i] is the position of the first item of [items] in the cycle. *)
Fixpoint process_each {A : Type} (process : nat -> A -> M bool)
  (items : list A) (i : nat) (stats : cycle_stats) : cycle_step :=
  match items with
  | [] => ([], (stats, Ok tt))
  | x :: rest =>
    match process i x with
    | (tr, Ok ok) =>
      let '(tr', out) := process_each process rest (S i) (count_item stats ok) in
      (tr ++ tr', out)
    | (tr, Raise e) => (tr, (stats, Raise e))
    end
  end.

Definition connection_error (cfg : config) : string :=
  if use_orthanc cfg
  then "Unable to connect to Orthanc server"
  else "Unable to connect to DICOM server".

(** The [try] block of [run_sheets_workflow] (lines 505-532). *)
Definition sheets_cycle_body (cfg : config) (w : cycle_env)
  (stats : cycle_stats) : cycle_step :=
  match test_connection w with
  | Raise e => ([TestConnection], (stats, Raise e))
  | Ok false => ([TestConnection], (stats, Raise (connection_error cfg)))
  | Ok true =>
    match get_pending_applications w with
    | Raise e => ([TestConnection; GetPendingApplications], (stats, Raise e))
    | Ok apps =>
      let stats1 := set_pending stats (Z.of_nat (List.length apps)) in
      if is_empty apps
      then ([TestConnection; GetPendingApplications], (stats1, Ok tt))
      else
        let '(tr, out) :=
          process_each
            (fun i => process_sheets_application cfg (item_collaborators w i))
            apps 0%nat stats1 in
        ([TestConnection; GetPendingApplications] ++ tr, out)
    end
  end.

(** [run_sheets_workflow] (lines 487-543). *)
Definition run_sheets_workflow (cfg : config) (w : cycle_env) : M cycle_stats :=
  let '(tr, (stats, r)) := sheets_cycle_body cfg w (mk_stats 0 0 0 0) in
  try_finally
    (try_except (tr, r)
       (fun e =>
          emit (LogError
            ("Critical error during Google Sheets workflow execution: " ++ e)%string)))
    (emit (LogStatistics stats)) ;;;
  ret stats.

(** [cleanup_old_files] (lines 645-660). *)
Definition cleanup_old_files (w : cycle_env) : M unit :=
  try_except
    (when (has_clean_downloads w) (call CleanDownloads (clean_downloads w)) ;;;
     call CleanupWorkDirectory (cleanup_work_directory w))
    (fun e => emit (LogError ("Error cleaning up old files: " ++ e)%string)).

(** The [try] block of [run_local_workflow] (lines 591-626). *)
Definition local_cycle_body (cfg : config) (w : cycle_env)
  (stats : cycle_stats) : cycle_step :=
  match test_connection w with
  | Raise e => ([TestConnection], (stats, Raise e))
  | Ok false => ([TestConnection], (stats, Raise (connection_error cfg)))
  | Ok true =>
    match download_pending_files w with
    | Raise e => ([TestConnection; DownloadPendingFiles], (stats, Raise e))
    | Ok files =>
      let stats1 := set_pending stats (Z.of_nat (List.length files)) in
      if is_empty files
      then ([TestConnection; DownloadPendingFiles], (stats1, Ok tt))
      else
        match process_each
                (fun i (fi : file_info) =>
                   process_single_workflow cfg (item_collaborators w i) fi)
                files 0%nat stats1 with
        | (tr, (stats2, Raise e)) =>
          ([TestConnection; DownloadPendingFiles] ++ tr, (stats2, Raise e))
        | (tr, (stats2, Ok _)) =>
          let '(tr', r) :=
            cleanup_old_files w ;;;
            when (has_clean_downloads w)
              (call CleanDownloads (clean_downloads w)) in
          ([TestConnection; DownloadPendingFiles] ++ tr ++ tr', (stats2, r))
        end
    end
  end.

(** [run_local_workflow] (lines 572-643).  [hasattr(self,
    'transfer_manager')] holds once [__init__] has returned. *)
Definition run_local_workflow (cfg : config) (w : cycle_env) : M cycle_stats :=
  let '(tr, (stats, r)) := local_cycle_body cfg w (mk_stats 0 0 0 0) in
  try_finally
    (try_except (tr, r)
       (fun e =>
          emit (LogError
            ("Critical error during workflow execution: " ++ e)%string) ;;;
          call (Notify "System critical error") (system_error_notification w)))
    (emit (LogStatistics stats)) ;;;
  ret stats.

(** [run_full_workflow] (lines 560-570). *)
Definition run_full_workflow (cfg : config) (w : cycle_env) : M cycle_stats :=
  if use_sheets_mode cfg
  then run_sheets_workflow cfg w
  else run_local_workflow cfg w.

(** ** The manager state, cancellation and the polling scheduler *)

(** The mutable attributes of [DicomWorkflowManager] set up by [__init__]
    (lines 41-44). *)
Record manager : Type := mk_manager {
  running : bool;
  total_processed : Z;
  total_successful : Z;
  total_failed : Z
}.

Definition new_manager : manager := mk_manager true 0 0 0.

(** [signal_handler] (lines 59-62). *)
Definition signal_handler (m : manager) : manager :=
  mk_manager false (total_processed m) (total_successful m) (total_failed m).

(** Time is a clock in microseconds (the resolution of [datetime]); only
    cycles and sleeps take time.  A run of the scheduler is driven by the
    clock times at which termination signals are delivered, by the oracles
    of each cycle and by the time each cycle takes. *)
Record schedule : Type := mk_schedule {
  signals : list Z;
  cycle_world : nat -> cycle_env;
  cycle_duration : nat -> Z
}.

Definition second : Z := 1000000.

(** The manager as the loop finds it when it reads it at time [clock]: the
    handler has run if a signal was delivered by then. *)
Definition observe (sch : schedule) (clock : Z) (m : manager) : manager :=
  if existsb (fun t => t <=? clock) (signals sch) then signal_handler m else m.

Inductive sched_event : Type :=
| CycleStart (cycle_count : nat) (clock : Z)
| CycleRun (events : list event)
| SleepFor (clock : Z) (duration : Z)
| LogOverrun.

(** The [try] statement of the loop body (lines 763-784). *)
Definition run_cycle (cfg : config) (w : cycle_env) (m : manager)
  : list event * manager :=
  match run_full_workflow cfg w with
  | (tr, Ok stats) =>
    (tr, mk_manager (running m)
           (total_processed m + processed_files stats)
           (total_successful m + successful_transfers stats)
           (total_failed m + failed_transfers stats))
  | (tr, Raise e) =>
    (tr ++ [LogError ("Error during cycle execution: " ++ e)%string],
     mk_manager (running m) (total_processed m) (total_successful m)
       (total_failed m + 1))
  end.

(** Lines 803-806: [n] one-second slices are left. *)
Fixpoint sleep_slices (sch : schedule) (n : nat) (clock : Z) (m : manager)
  : list sched_event * Z * manager :=
  match n with
  | O => ([], clock, m)
  | S n' =>
    let m1 := observe sch clock m in
    if negb (running m1) then ([], clock, m1)
    else
      let '(tr, clock', m') := sleep_slices sch n' (clock + second) m1 in
      (SleepFor clock second :: tr, clock', m')
  end.

(** Lines 802-810: sleep [sleep_time] microseconds from time [clock] on. *)
Definition inter_cycle_sleep (sch : schedule) (sleep_time : Z) (clock : Z)
  (m : manager) : list sched_event * Z * manager :=
  let '(tr, clock1, m1) :=
    sleep_slices sch (Z.to_nat (sleep_time / second)) clock m in
  let m2 := observe sch clock1 m1 in
  if running m2 && (0 <? sleep_time mod second)
  then (tr ++ [SleepFor clock1 (sleep_time mod second)],
        clock1 + sleep_time mod second, m2)
  else (tr, clock1, m2).

(** [run_continuous_mode] (lines 739-812), with [check_interval] in
    seconds.  [fuel] bounds the number of iterations of [while
    self.running]; the last component of the value tells whether the loop
    was left ([true]) or the bound was reached first. *)
Fixpoint run_continuous_mode (cfg : config) (sch : schedule)
  (check_interval : Z) (fuel : nat) (cycle_count : nat) (clock : Z)
  (m : manager) : list sched_event * Z * manager * bool :=
  match fuel with
  | O => ([], clock, m, false)
  | S fuel' =>
    let m0 := observe sch clock m in
    if negb (running m0) then ([], clock, m0, true)
    else
      let cycle_count := S cycle_count in
      let cycle_start := clock in
      let '(evs, m1) := run_cycle cfg (cycle_world sch cycle_count) m0 in
      let cycle_end := cycle_start + cycle_duration sch cycle_count in
      let m2 := observe sch cycle_end m1 in
      let head := [CycleStart cycle_count cycle_start; CycleRun evs] in
      if negb (running m2) then (head, cycle_end, m2, true)
      else
        let duration := cycle_end - cycle_start in
        if duration <? check_interval * second then
          let '(slept, clock', m3) :=
            inter_cycle_sleep sch (check_interval * second - duration)
              cycle_end m2 in
          let '(rest, clock'', m4, stopped) :=
            run_continuous_mode cfg sch check_interval fuel' cycle_count
              clock' m3 in
          (head ++ slept ++ rest, clock'', m4, stopped)
        else
          let '(rest, clock'', m4, stopped) :=
            run_continuous_mode cfg sch check_interval fuel' cycle_count
              cycle_end m2 in
          (head ++ LogOverrun :: rest, clock'', m4, stopped)
  end.

(** ** [webhook_server.py] *)

(** [repr] of a list of field names, as an f-string prints it. *)
Fixpoint join_quoted (fields : list string) : string :=
  match fields with
  | [] => ""
  | [f] => ("'" ++ f ++ "'")%string
  | f :: rest => ("'" ++ f ++ "', " ++ join_quoted rest)%string
  end.

Definition list_repr (fields : list string) : string :=
  ("[" ++ join_quoted fields ++ "]")%string.

(** The methods with which the route reaches the handler: it is declared
    for GET and POST, and the framework adds HEAD to a rule that allows
    GET (it answers OPTIONS itself and refuses the others). *)
Inductive http_method : Type := GET | HEAD | POST.

(** What the handler reads of a request: the method, the header
    [X-Webhook-Signature] if present, the raw body, and what
    [request.get_json()] does on it. *)
Record request : Type := mk_request {
  method : http_method;
  signature_header : option string;
  data : string;
  get_json : result json
}.

Record response : Type := mk_response {
  status_code : Z;
  body : list (string * json)
}.

(** The module state: [app.config.get('ENABLE_AUTH')] if set, the secret,
    and the global [workflow_manager] ([None] until
    [set_workflow_manager]). *)
Record server : Type := mk_server {
  enable_auth : option bool;
  webhook_secret : string;
  workflow_manager : option manager
}.

(** [set_workflow_manager] (lines 51-55). *)
Definition set_workflow_manager (srv : server) (m : manager) : server :=
  mk_server (enable_auth srv) (webhook_secret srv) (Some m).

(** [create_webhook_server] (lines 246-260) sets the switch. *)
Definition create_webhook_server (srv : server) (auth : bool) : server :=
  mk_server (Some auth) (webhook_secret srv) (workflow_manager srv).

Definition required_fields : list string :=
  ["identifier"; "filename"; "row_number"].

(** [[field for field in required_fields if field not in data]]. *)
Fixpoint missing_from (fields : list string) (d : json)
  : result (list string) :=
  match fields with
  | [] => Ok []
  | f :: rest =>
    match py_in f d with
    | Raise e => Raise e
    | Ok present =>
      match missing_from rest d with
      | Raise e => Raise e
      | Ok missing => Ok (if present then missing else f :: missing)
      end
    end
  end.

Definition error_body (msg : string) : list (string * json) :=
  [("error", JStr msg)].

(** A Python [str] whose characters are all ASCII. *)
Definition is_ascii_char (c : ascii) : bool :=
  match c with
  | Ascii _ _ _ _ _ _ _ b7 => negb b7
  end.

Fixpoint is_ascii (s : string) : bool :=
  match s with
  | EmptyString => true
  | String c s' => is_ascii_char c && is_ascii s'
  end.

Section Webhook.

(** [hmac.new(key, payload, hashlib.sha256).hexdigest()]. *)
Variable hmac_sha256_hexdigest : string -> string -> string.

(** [verify_webhook_signature] (lines 71-88).  [hmac.compare_digest]
    raises [TypeError] when one of the two strings holds a character that
    is not ASCII. *)
Definition verify_webhook_signature (srv : server) (payload signature : string)
  : result bool :=
  let expected_signature := hmac_sha256_hexdigest (webhook_secret srv) payload in
  if is_ascii expected_signature && is_ascii signature
  then Ok (String.eqb expected_signature signature)
  else Raise "comparing strings with non-ASCII characters is not supported".

(** Lines 134-170 of [handle_upload_notification]: the request has passed
    the signature check, or none was asked for. *)
Definition handle_payload (srv : server) (req : request) (now : string)
  : M response :=
  d <- lift (get_json req) ;;
  if py_not d then
    emit (LogError "Received empty webhook request") ;;;
    ret (mk_response 400 (error_body "Request content is empty"))
  else
  missing_fields <- lift (missing_from required_fields d) ;;
  if negb (is_empty missing_fields) then
    emit (LogError
      ("Missing required fields: " ++ list_repr missing_fields)%string) ;;;
    ret (mk_response 400
           (error_body
              ("Missing required fields: " ++ list_repr missing_fields)%string))
  else
  match workflow_manager srv with
  | None =>
    emit (LogError "Workflow manager not configured") ;;;
    ret (mk_response 503 (error_body "System not ready"))
  | Some _ =>
    emit (StartThread d) ;;;
    ident <- lift (py_getitem d "identifier") ;;
    ret (mk_response 202
           [("status", JStr "accepted");
            ("message",
             JStr "Upload notification received, starting processing");
            ("identifier", ident);
            ("timestamp", JStr now)])
  end.

(** The POST branch of [handle_upload_notification] (lines 121-174);
    [app.config.get('ENABLE_AUTH', True)] defaults to [True]. *)
Definition handle_post (srv : server) (req : request) (now : string)
  : M response :=
  try_except
    (if match enable_auth srv with Some b => b | None => true end then
       let signature :=
         match signature_header req with Some s => s | None => "" end in
       if String.eqb signature "" then
         emit (LogWarning "Received unsigned webhook request") ;;;
         ret (mk_response 401 (error_body "Missing signature"))
       else
         verified <- lift (verify_webhook_signature srv (data req) signature) ;;
         if negb verified then
           emit (LogWarning "Webhook signature verification failed") ;;;
           ret (mk_response 401 (error_body "Signature verification failed"))
         else handle_payload srv req now
     else handle_payload srv req now)
    (fun e =>
       emit (LogError ("Error processing webhook request: " ++ e)%string) ;;;
       ret (mk_response 500 (error_body e))).

(** [handle_upload_notification] (lines 101-174). *)
Definition handle_upload_notification (srv : server) (req : request)
  (now : string) : M response :=
  match method req with
  | GET =>
    ret (mk_response 200
           [("status", JStr "ok");
            ("message", JStr "Webhook endpoint is operational");
            ("service", JStr "DICOM Upload Webhook");
            ("method_required", JStr "POST");
            ("workflow_manager",
             JStr (match workflow_manager srv with
                   | Some _ => "ready"
                   | None => "not_ready"
                   end));
            ("timestamp", JStr now)])
  | HEAD | POST => handle_post srv req now
  end.

End Webhook.

(** The dictionary [application] built by [process_upload_async] (lines
    188-199). *)
Definition build_application (d : json) : M application :=
  row <- lift (py_getitem d "row_number") ;;
  ctime <- lift (py_get d "creation_time") ;;
  hospital <- lift (py_get d "hospital_name") ;;
  exam <- lift (py_get d "exam_type") ;;
  name <- lift (py_get d "uploader_name") ;;
  phone <- lift (py_get d "uploader_phone") ;;
  email <- lift (py_get d "uploader_email") ;;
  fname <- lift (py_getitem d "filename") ;;
  ident <- lift (py_getitem d "identifier") ;;
  ret (mk_application row ctime hospital exam name phone email fname ident
         (JStr "")).

(** [process_upload_async] (lines 177-210), run by the thread the handler
    starts, on the manager [m] that was wired.  No statement of the
    function assigns to an attribute of the manager: the second component
    is the manager when the function returns. *)
Definition process_upload_async (cfg : config) (env : collaborators)
  (m : manager) (d : json) : M unit * manager :=
  (try_except
     (lift (py_getitem d "identifier") ;;;
      app <- build_application d ;;
      ok <- process_sheets_application cfg env app ;;
      when (negb ok) (emit (LogError "Upload processing failed")))
     (fun e =>
        emit (LogError
          ("Error during asynchronous upload processing: " ++ e)%string)),
   m).

(** [webhook_status] (lines 227-243). *)
Definition webhook_status (srv : server) (now : string) : response :=
  mk_response 200
    ([("webhook_server", JStr "running");
      ("workflow_manager",
       JStr (match workflow_manager srv with
             | Some _ => "ready"
             | None => "not_ready"
             end));
      ("timestamp", JStr now)] ++
     match workflow_manager srv with
     | Some m =>
       [("statistics",
         JObj [("total_processed", JNum (total_processed m));
               ("total_successful", JNum (total_successful m));
               ("total_failed", JNum (total_failed m))])]
     | None => []
     end).

(** ** Observations on traces, and the inputs used as examples *)

Definition is_attempt (e : event) : bool :=
  match e with
  | SendBatch _ | UploadBatchViaApi _ => true
  | _ => false
  end.

Definition is_log (e : event) : bool :=
  match e with
  | LogError _ | LogWarning _ => true
  | _ => false
  end.

Definition is_notify (e : event) : bool :=
  match e with
  | Notify _ => true
  | _ => false
  end.

(** The number of transmit attempts, and of calls of the notifier. *)
Definition attempts (tr : list event) : nat := List.length (filter is_attempt tr).
Definition notifications (tr : list event) : nat :=
  List.length (filter is_notify tr).

(** What the sender answers to attempt [a] on path [p], and the event by
    which that attempt is observed. *)
Definition transmit_oracle (p : path) (cfg : config) (env : collaborators)
  (a : Z) : result send_result :=
  match p with
  | SheetsPath =>
    if use_orthanc cfg then upload_batch_via_api env a else send_batch env a
  | LocalPath => send_batch env a
  end.

Definition attempt_event (p : path) (cfg : config) (a : Z) : event :=
  match p with
  | SheetsPath => if use_orthanc cfg then UploadBatchViaApi a else SendBatch a
  | LocalPath => SendBatch a
  end.

(** The retry loop of path [p] from iteration [a] on, [n] iterations left. *)
Definition retry_loop (p : path) (cfg : config) (env : collaborators)
  (n : nat) (a : Z) : M bool :=
  match p with
  | SheetsPath => sheets_send_loop cfg env n a
  | LocalPath => local_send_loop cfg env n a
  end.

(** Whether the loop of path [p] waits after an attempt judged [v]. *)
Definition waits_after (p : path) (v : verdict) : bool :=
  match p, v with
  | SheetsPath, SendFailed => true
  | SheetsPath, _ => false
  | LocalPath, v => negb (satisfied v)
  end.


Definition four_of_five : send_result := mk_send_result 4 5 1 ["e.dcm"].
Definition none_sent : send_result := mk_send_result 0 5 5 ["a.dcm"; "b.dcm"].
Definition all_sent : send_result := mk_send_result 5 5 0 [].

Definition two_files : processing_result :=
  mk_processing_result true None ["out/1.dcm"; "out/2.dcm"] (Some "out").
Definition no_files : processing_result :=
  mk_processing_result true None [] (Some "out").

(** Collaborators that all succeed, and send every file at once. *)
Definition healthy : collaborators :=
  mk_collaborators (Ok (Some "drive-id")) (Ok (Some "downloads/a.zip")) (Ok tt)
    (Ok two_files) (fun _ => Ok all_sent) (fun _ => Ok all_sent)
    (Ok true) (Ok tt) (Ok tt) (Ok tt) (Ok tt) (Ok true) (Ok tt)
    (fun _ => Ok tt) (fun _ => Ok tt).

Definition with_process_file (env : collaborators)
  (r : result processing_result) : collaborators :=
  mk_collaborators (find_file_in_drive env) (download_file_from_drive env)
    (create_file_info_for_processing env) r (send_batch env)
    (upload_batch_via_api env) (update_transmission_time env)
    (delete_drive_file_with_user_auth env) (cleanup_local_file env)
    (rmtree_output_directory env) (clean_processing_folder env)
    (complete_transfer_process env) (delete_source_file env)
    (send_error_notification env) (clock_sleep env).

Definition with_send_batch (env : collaborators)
  (f : Z -> result send_result) : collaborators :=
  mk_collaborators (find_file_in_drive env) (download_file_from_drive env)
    (create_file_info_for_processing env) (process_file env) f f
    (update_transmission_time env)
    (delete_drive_file_with_user_auth env) (cleanup_local_file env)
    (rmtree_output_directory env) (clean_processing_folder env)
    (complete_transfer_process env) (delete_source_file env)
    (send_error_notification env) (clock_sleep env).

Definition with_complete_transfer (env : collaborators) (r : result bool)
  : collaborators :=
  mk_collaborators (find_file_in_drive env) (download_file_from_drive env)
    (create_file_info_for_processing env) (process_file env) (send_batch env)
    (upload_batch_via_api env) (update_transmission_time env)
    (delete_drive_file_with_user_auth env) (cleanup_local_file env)
    (rmtree_output_directory env) (clean_processing_folder env)
    r (delete_source_file env) (send_error_notification env) (clock_sleep env).

Definition with_find_file (env : collaborators)
  (r : result (option string)) : collaborators :=
  mk_collaborators r (download_file_from_drive env)
    (create_file_info_for_processing env) (process_file env) (send_batch env)
    (upload_batch_via_api env) (update_transmission_time env)
    (delete_drive_file_with_user_auth env) (cleanup_local_file env)
    (rmtree_output_directory env) (clean_processing_folder env)
    (complete_transfer_process env) (delete_source_file env)
    (send_error_notification env) (clock_sleep env).

Definition three_tries : config := mk_config 3 30 false true.
Definition one_try : config := mk_config 1 30 false true.

Definition an_application : application :=
  mk_application (JNum 7) (JStr "") (JStr "") (JStr "") (JStr "") (JStr "")
    (JStr "") (JStr "scan.zip") (JStr "ID-7") (JStr "").

Definition a_file : file_info := mk_file_info (JStr "P-1") "scan.zip".


(** The processing of one item on path [p]. *)
Definition process_item (p : path) (cfg : config) (env : collaborators)
  (app : application) (fi : file_info) : M bool :=
  match p with
  | SheetsPath => process_sheets_application cfg env app
  | LocalPath => process_single_workflow cfg env fi
  end.

(** The item was located and downloaded (sheets/push path, steps 1 to 3). *)
Definition fetched (env : collaborators) : Prop :=
  exists file_id local_path,
    find_file_in_drive env = Ok file_id /\ truthy file_id = true /\
    download_file_from_drive env = Ok local_path /\
    truthy local_path = true /\
    create_file_info_for_processing env = Ok tt.

(** The transform stage succeeded and produced files to send. *)
Definition transformed (env : collaborators) : Prop :=
  exists pr,
    process_file env = Ok pr /\ success pr = true /\
    is_empty (processed_paths pr) = false.

(** The item reached the transmit stage on path [p] and its send was
    satisfied. *)
Definition send_satisfied (p : path) (cfg : config) (env : collaborators)
  : Prop :=
  match p with
  | SheetsPath => fetched env
  | LocalPath => True
  end /\
  transformed env /\
  outcome (send_loop p cfg env) = Ok true.

Definition with_cleanup_failures (env : collaborators) : collaborators :=
  mk_collaborators (find_file_in_drive env) (download_file_from_drive env)
    (create_file_info_for_processing env) (process_file env) (send_batch env)
    (upload_batch_via_api env) (Ok false)
    (Raise "drive") (cleanup_local_file env)
    (Raise "rmtree") (Raise "rmtree")
    (complete_transfer_process env) (Raise "unlink")
    (send_error_notification env) (clock_sleep env).

Definition failed_transform : processing_result :=
  mk_processing_result false (Some "corrupt archive") [] None.

(** A cycle whose connectivity probe fails; [notifier] answers the
    system-level notification. *)
Definition unreachable (notifier : result unit) : cycle_env :=
  mk_cycle_env (Ok false) (Ok [an_application]) (Ok [a_file])
    (fun _ => healthy) true (Ok tt) (Ok tt) notifier.

(** A cycle with one pending item that is processed successfully. *)
Definition one_item : cycle_env :=
  mk_cycle_env (Ok true) (Ok [an_application]) (Ok [a_file])
    (fun _ => healthy) true (Ok tt) (Ok tt) (Ok tt).

Definition local_mode : config := mk_config 3 30 false false.




(** A schedule with a termination signal 7.5 s after the start; every cycle
    takes 2 s and finds nothing to do. *)
Definition signal_during_sleep : schedule :=
  mk_schedule [7500000]
    (fun _ => mk_cycle_env (Ok true) (Ok []) (Ok []) (fun _ => healthy) true
                (Ok tt) (Ok tt) (Ok tt))
    (fun _ => 2 * second).

Definition is_start_thread (e : event) : bool :=
  match e with
  | StartThread _ => true
  | _ => false
  end.

(** The processing threads a handler run has started. *)
Definition threads_started (tr : list event) : list event :=
  filter is_start_thread tr.

(** The request gets past the signature check of [handle_upload_notification]
    (lines 124-132): the check is switched off, or a non-empty signature is
    present and verifies. *)
Definition passes_signature_check (hmac : string -> string -> string)
  (srv : server) (req : request) : Prop :=
  enable_auth srv = Some false \/
  exists s, signature_header req = Some s /\ String.eqb s "" = false /\
            verify_webhook_signature hmac srv (data req) s = Ok true.

Definition accepted_body (ident : json) (now : string)
  : list (string * json) :=
  [("status", JStr "accepted");
   ("message", JStr "Upload notification received, starting processing");
   ("identifier", ident);
   ("timestamp", JStr now)].

(** A hash function to run the examples with. *)
Definition toy_hmac (key payload : string) : string := (key ++ payload)%string.

Definition fresh_server : server := mk_server None "change-this-secret-key" None.

Definition wired_server : server :=
  set_workflow_manager (create_webhook_server fresh_server false) new_manager.

Definition upload_payload : json :=
  JObj [("identifier", JStr "ID-7"); ("filename", JStr "scan.zip");
        ("row_number", JNum 7)].

Definition payload_without_filename : json :=
  JObj [("identifier", JStr "ID-7"); ("row_number", JNum 7)].

Definition post (sig : option string) (d : json) : request :=
  mk_request POST sig "raw" (Ok d).



(** A notifier that is down, in front of a transform stage that raises. *)
Definition notifier_down : collaborators :=
  mk_collaborators (Ok (Some "drive-id")) (Ok (Some "downloads/a.zip")) (Ok tt)
    (Raise "bad zip") (fun _ => Ok all_sent) (fun _ => Ok all_sent)
    (Ok true) (Ok tt) (Ok tt) (Ok tt) (Ok tt) (Ok true) (Ok tt)
    (fun _ => Raise "smtp down") (fun _ => Ok tt).

Definition ghost_files : send_result := mk_send_result 2 0 0 [].

(** The counters of a cycle add up and are not negative. *)
Definition consistent (stats : cycle_stats) : Prop :=
  processed_files stats = successful_transfers stats + failed_transfers stats /\
  0 <= successful_transfers stats /\ 0 <= failed_transfers stats.

(** The lifetime counters add up. *)
Definition balanced (m : manager) : Prop :=
  total_processed m = total_successful m + total_failed m.

(** A local cycle with three pending files; the second makes the transform
    stage raise while the notifier is down. *)
Definition second_item_escapes : cycle_env :=
  mk_cycle_env (Ok true) (Ok []) (Ok [a_file; a_file; a_file])
    (fun i => if (i =? 1)%nat then notifier_down else healthy)
    true (Ok tt) (Ok tt) (Ok tt).

(** The cycles started in a run of the scheduler, with their start times. *)
Fixpoint cycle_starts (tr : list sched_event) : list (nat * Z) :=
  match tr with
  | [] => []
  | CycleStart k t :: rest => (k, t) :: cycle_starts rest
  | _ :: rest => cycle_starts rest
  end.

(** Every cycle takes two and a half seconds and no signal is delivered. *)
Definition undisturbed : schedule :=
  mk_schedule [] (fun _ => one_item) (fun _ => 2500000).

(** A body that is a JSON array of the three field names. *)
Definition array_payload : json :=
  JArr [JStr "identifier"; JStr "filename"; JStr "row_number"].

(** [data.get(k, '')] on the members of an object. *)
Definition field_or_empty (k : string) (members : list (string * json))
  : json :=
  match lookup k members with
  | Some v => v
  | None => JStr ""
  end.

(** The required fields that an object lacks, in the order of
    [required_fields]. *)
Definition absent_fields (members : list (string * json)) : list string :=
  filter (fun f => match lookup f members with
                   | Some _ => false
                   | None => true
                   end)
         required_fields.

(** ** The entry point of [main.py] *)

(** The command-line switches that select what [main] runs. *)
Record arguments : Type := mk_arguments {
  arg_test_connection : bool;
  arg_download_only : bool;
  arg_cleanup_only : bool;
  arg_once : bool;
  arg_local_mode : bool
}.

(** [DicomWorkflowManager(args.config, use_sheets_mode=use_sheets_mode)]:
    the settings of the configuration file with the mode chosen on the
    command line. *)
Definition with_mode (cfg : config) (sheets : bool) : config :=
  mk_config (max_retry_attempts cfg) (retry_delay_seconds cfg)
    (use_orthanc cfg) sheets.

(** [main] (lines 832-955); the value is the exit code.  [constructed] is
    how the constructor of the manager ends, [long_running] stands for the
    webhook and polling modes (lines 890-947); [print] is not recorded. *)
Definition main (args : arguments) (cfg : config) (constructed : result unit)
  (w : cycle_env) (long_running : M Z) : M Z :=
  try_except
    (lift constructed ;;;
     (if arg_test_connection args then
        ok <- call TestConnection (test_connection w) ;;
        ret (if ok then 0 else 1)
      else if arg_download_only args then
        call DownloadPendingFiles (download_pending_files w) ;;;
        ret 0
      else if arg_cleanup_only args then
        cleanup_old_files w ;;;
        ret 0
      else if arg_once args then
        stats <- run_full_workflow
                   (with_mode cfg (negb (arg_local_mode args))) w ;;
        ret (if failed_transfers stats =? 0 then 0
             else if successful_transfers stats >? 0 then 2
             else 1)
      else long_running))
    (fun e => ret 1).

(** [--once] in sheets mode, and in local mode. *)
Definition once_sheets : arguments := mk_arguments false false false true false.
Definition once_local : arguments := mk_arguments false false false true true.

(** A sheets cycle with two pending applications; the second one is not
    found in the drive. *)
Definition second_item_missing : cycle_env :=
  mk_cycle_env (Ok true) (Ok [an_application; an_application]) (Ok [])
    (fun i => if (i =? 1)%nat then with_find_file healthy (Ok None)
              else healthy)
    true (Ok tt) (Ok tt) (Ok tt).

(** The deletions of the source of an item: the Drive file on the
    sheets/push path, the monitored file on the local path. *)
Definition is_source_delete (e : event) : bool :=
  match e with
  | DeleteDriveFile | DeleteSourceFile => true
  | _ => false
  end.

Definition deletions (tr : list event) : nat :=
  List.length (filter is_source_delete tr).

(** The transmit stage sends nothing at the first attempts and everything
    at the third. *)
Definition third_try_passes : collaborators :=
  with_send_batch healthy
    (fun a => if a <? 2 then Ok none_sent else Ok all_sent).

(** Collaborators that all succeed, except that the downloaded copy cannot
    be removed. *)
Definition cleanup_raises : collaborators :=
  mk_collaborators (find_file_in_drive healthy)
    (download_file_from_drive healthy)
    (create_file_info_for_processing healthy) (process_file healthy)
    (send_batch healthy) (upload_batch_via_api healthy)
    (update_transmission_time healthy)
    (delete_drive_file_with_user_auth healthy) (Raise "file in use")
    (rmtree_output_directory healthy) (clean_processing_folder healthy)
    (complete_transfer_process healthy) (delete_source_file healthy)
    (send_error_notification healthy) (clock_sleep healthy).







(** A header value holding one character that is not ASCII (e acute in
    Latin-1). *)
Definition latin1_header : string := String (ascii_of_nat 233) "".

(** * Properties *)

(** ** The judgement of a transmit attempt *)

Lemma rate_threshold (s t : Z) :
  0 < t ->
  (80 <= inject_Z s / inject_Z t * 100 <-> 8 # 10 <= inject_Z s / inject_Z t)%Q.
Proof.
  intros Ht. destruct t as [|p|p]; try lia.
  unfold Qle, Qdiv, Qmult, Qinv, inject_Z; simpl.
  split; intros H; lia.
Qed.

Lemma ratio_cross_multiplied (s t : Z) :
  0 < t ->
  ((8 # 10 <= inject_Z s / inject_Z t)%Q <-> 80 * t <= 100 * s).
Proof.
  intros Ht. destruct t as [|p|p]; try lia.
  unfold Qle, Qdiv, Qmult, Qinv, inject_Z. cbn [Qnum Qden].
  rewrite Pos2Z.inj_mul. split; intros; lia.
Qed.

Lemma rate_positive (s t : Z) :
  0 < t -> (8 # 10 <= inject_Z s / inject_Z t)%Q -> 0 < s.
Proof.
  intros Ht. destruct t as [|p|p]; try lia.
  unfold Qle, Qdiv, Qmult, Qinv, inject_Z; simpl.
  intros H. lia.
Qed.

Lemma sheets_judgement (r : send_result) :
  0 < total_files r ->
  (judged_satisfied SheetsPath r <-> spec_send_satisfied r).
Proof.
  intros Ht. unfold judged_satisfied, spec_send_satisfied; simpl.
  unfold sheets_verdict, success_rate.
  destruct (Z.eqb_spec (successful r) (total_files r)) as [E|E].
  - split; [now left|]. intros _. exists AllSent. now split.
  - destruct (Z.eqb_spec (total_files r) 0) as [Z0|_]; [lia|].
    destruct (Z.gtb_spec (successful r) 0) as [P|P].
    + destruct (Qle_bool 80 (inject_Z (successful r) / inject_Z (total_files r) * 100))
        eqn:Q.
      * split.
        -- intros _. right. apply rate_threshold; [assumption|].
           now apply Qle_bool_iff.
        -- intros _. exists MostSent. now split.
      * split.
        -- intros [v [Hv Hs]]. injection Hv as <-. discriminate.
        -- intros [H|H]; [contradiction|].
           apply rate_threshold in H; [|assumption].
           apply Qle_bool_iff in H. congruence.
    + split.
      * intros [v [Hv Hs]]. injection Hv as <-. discriminate.
      * intros [H|H]; [contradiction|].
        apply rate_positive in H; [lia|assumption].
Qed.

Lemma local_judgement (r : send_result) :
  judged_satisfied LocalPath r <-> successful r = total_files r.
Proof.
  unfold judged_satisfied; simpl. unfold local_verdict.
  destruct (Z.eqb_spec (successful r) (total_files r)) as [E|E].
  - split; [trivial|]. intros _. exists AllSent. now split.
  - split; [|contradiction].
    intros [v [Hv Hs]]. injection Hv as <-. discriminate.
Qed.

(** C1, as amended.  For every transmit outcome with [total_files > 0]:
    the sheets/push path ([process_sheets_application]) judges the send
    satisfied if and only if [successful == total_files] or
    [successful / total_files >= 0.80], so a ratio of exactly 0.80 is
    satisfied and a ratio below 0.80 is not; the local poll path
    ([process_single_workflow]) judges it satisfied if and only if
    [successful == total_files]. *)
Theorem C1_send_satisfied_by_path (r : send_result) :
  0 < total_files r ->
  (judged_satisfied SheetsPath r <-> spec_send_satisfied r) /\
  (100 * successful r = 80 * total_files r -> judged_satisfied SheetsPath r) /\
  (100 * successful r < 80 * total_files r -> ~ judged_satisfied SheetsPath r) /\
  (judged_satisfied LocalPath r <-> successful r = total_files r).
Proof.
  intros Ht. pose proof (sheets_judgement r Ht) as HS.
  repeat split.
  - apply HS.
  - apply HS.
  - intros E. apply HS. right. apply ratio_cross_multiplied; lia.
  - intros L H. apply HS in H. destruct H as [H|H]; [lia|].
    apply ratio_cross_multiplied in H; lia.
  - apply local_judgement.
  - apply local_judgement.
Qed.

Lemma C1_send_satisfied_by_path_witness :
  0 < total_files four_of_five /\
  judged_satisfied SheetsPath four_of_five /\
  ~ judged_satisfied LocalPath four_of_five.
Proof.
  assert (Ht : 0 < total_files four_of_five) by (simpl; lia).
  destruct (C1_send_satisfied_by_path four_of_five Ht) as [_ [B [_ L]]].
  split; [exact Ht|]. split.
  - apply B. reflexivity.
  - intros H. apply L in H. discriminate H.
Defined.

(** C1 as stated fails: the local poll path does not accept a partial
    send.  With 4 files out of 5 sent the policy is met (4/5 = 0.80) but
    [process_single_workflow] does not set [send_success]. *)
Lemma C1_local_path_rejects_partial_send :
  ~ (forall (p : path) (r : send_result),
       0 < total_files r ->
       (judged_satisfied p r <-> spec_send_satisfied r)).
Proof.
  intros H.
  assert (S : spec_send_satisfied four_of_five).
  { right. unfold Qle; simpl. lia. }
  apply (H LocalPath four_of_five) in S; [|simpl; lia].
  apply local_judgement in S. discriminate S.
Qed.

(** ** The retry loop *)

Lemma bind_value {A B : Type} (tr : list event) (a : A) (k : A -> M B) :
  bind (tr, Ok a) k = (tr ++ fst (k a), snd (k a)).
Proof. unfold bind. now destruct (k a). Qed.

Lemma bind_emit {B : Type} (e : event) (k : unit -> M B) :
  bind (emit e) k = (e :: fst (k tt), snd (k tt)).
Proof. unfold emit. now rewrite bind_value. Qed.

Lemma for_each_logs {A : Type} (f : A -> M unit) (l : list A) :
  (forall x, exists e, f x = ([e], Ok tt) /\ is_log e = true) ->
  exists logs, for_each f l = (logs, Ok tt) /\ forallb is_log logs = true.
Proof.
  intros Hf. induction l as [|x l IH]; simpl.
  - exists []. now split.
  - destruct (Hf x) as [e [Ex Le]]. destruct IH as [logs [El Ll]].
    rewrite Ex, El. simpl. exists (e :: logs). split; [reflexivity|].
    simpl. now rewrite Le, Ll.
Qed.

Lemma log_failed_files_logs (fs : list string) :
  exists logs,
    log_failed_files fs = (logs, Ok tt) /\ forallb is_log logs = true.
Proof.
  unfold log_failed_files, when. destruct fs as [|f fs]; cbn [is_empty negb].
  - exists []. now split.
  - destruct (for_each_logs (fun f => emit (LogWarning ("  - " ++ f)%string))
                (firstn 3 (f :: fs))) as [logs [El Ll]].
    { intros x. eexists. split; reflexivity. }
    rewrite bind_emit, El, bind_value.
    destruct (3 <? Z.of_nat (List.length (f :: fs))); cbn [emit ret fst snd].
    + eexists. split; [reflexivity|]. simpl. rewrite forallb_app, Ll. reflexivity.
    + eexists. split; [reflexivity|]. simpl. rewrite forallb_app, Ll. reflexivity.
Qed.

(** What [time.sleep] does with a length. *)
Lemma time_sleep_cases (env : collaborators) (d : Z) :
  time_sleep env d = ([Sleep d], Ok tt) \/
  exists e, time_sleep env d = ([], Raise e).
Proof.
  unfold time_sleep. destruct (d <? 0); [right; eexists; reflexivity|].
  destruct (clock_sleep env d) as [[]|e];
    [now left|right; eexists; reflexivity].
Qed.



(** One iteration of the loop of either path.  After an unsatisfied
    attempt the loop goes on, past the retry delay where one is due, unless
    [time.sleep] raises: then the loop is left with that exception. *)
Lemma retry_loop_step (p : path) (cfg : config) (env : collaborators)
  (n : nat) (a : Z) :
  match transmit_oracle p cfg env a with
  | Raise e =>
    retry_loop p cfg env (S n) a = ([attempt_event p cfg a], Raise e)
  | Ok r =>
    match path_verdict p r with
    | Raise e =>
      retry_loop p cfg env (S n) a = ([attempt_event p cfg a], Raise e)
    | Ok v =>
      if satisfied v
      then retry_loop p cfg env (S n) a = ([attempt_event p cfg a], Ok true)
      else
        exists logs,
          forallb is_log logs = true /\
          (retry_loop p cfg env (S n) a =
           (attempt_event p cfg a :: logs ++
              (if (a <? max_retry_attempts cfg - 1) && waits_after p v
               then [Sleep (retry_delay_seconds cfg)] else []) ++
              trace (retry_loop p cfg env n (a + 1)),
            outcome (retry_loop p cfg env n (a + 1))) /\
           ((a <? max_retry_attempts cfg - 1) && waits_after p v = true ->
            time_sleep env (retry_delay_seconds cfg)
            = ([Sleep (retry_delay_seconds cfg)], Ok tt)) \/
           ((a <? max_retry_attempts cfg - 1) && waits_after p v = true /\
            exists e,
              time_sleep env (retry_delay_seconds cfg) = ([], Raise e) /\
              retry_loop p cfg env (S n) a =
              (attempt_event p cfg a :: logs, Raise e)))
    end
  end.
Proof.
  destruct p; simpl.
  - unfold sheets_send.
    destruct (use_orthanc cfg).
    + destruct (upload_batch_via_api env a) as [r|e]; simpl; [|reflexivity].
      destruct (sheets_verdict r) as [[| | |]|e]; simpl; try reflexivity.
      * exists [LogWarning "Partial send failure"]. split; [reflexivity|].
        left. rewrite andb_false_r. split; [|discriminate].
        destruct (sheets_send_loop cfg env n (a + 1)); reflexivity.
      * destruct (log_failed_files_logs (failed_files r)) as [logs [El Ll]].
        rewrite El. exists (LogWarning "File send failed" :: logs).
        split; [simpl; exact Ll|]. rewrite andb_true_r. unfold when.
        destruct (a <? max_retry_attempts cfg - 1); simpl.
        -- destruct (time_sleep_cases env (retry_delay_seconds cfg))
             as [E|[e E]]; rewrite E; simpl.
           ++ left. split; [|reflexivity].
              destruct (sheets_send_loop cfg env n (a + 1)); simpl;
                rewrite <- ?app_assoc; reflexivity.
           ++ right. split; [reflexivity|]. exists e.
              split; [reflexivity|]. now rewrite app_nil_r.
        -- left. split; [|discriminate].
           destruct (sheets_send_loop cfg env n (a + 1)); simpl;
             rewrite <- ?app_assoc; reflexivity.
    + destruct (send_batch env a) as [r|e]; simpl; [|reflexivity].
      destruct (sheets_verdict r) as [[| | |]|e]; simpl; try reflexivity.
      * exists [LogWarning "Partial send failure"]. split; [reflexivity|].
        left. rewrite andb_false_r. split; [|discriminate].
        destruct (sheets_send_loop cfg env n (a + 1)); reflexivity.
      * destruct (log_failed_files_logs (failed_files r)) as [logs [El Ll]].
        rewrite El. exists (LogWarning "File send failed" :: logs).
        split; [simpl; exact Ll|]. rewrite andb_true_r. unfold when.
        destruct (a <? max_retry_attempts cfg - 1); simpl.
        -- destruct (time_sleep_cases env (retry_delay_seconds cfg))
             as [E|[e E]]; rewrite E; simpl.
           ++ left. split; [|reflexivity].
              destruct (sheets_send_loop cfg env n (a + 1)); simpl;
                rewrite <- ?app_assoc; reflexivity.
           ++ right. split; [reflexivity|]. exists e.
              split; [reflexivity|]. now rewrite app_nil_r.
        -- left. split; [|discriminate].
           destruct (sheets_send_loop cfg env n (a + 1)); simpl;
             rewrite <- ?app_assoc; reflexivity.
  - destruct (send_batch env a) as [r|e]; simpl; [|reflexivity].
    unfold local_verdict.
    destruct (successful r =? total_files r); simpl; [reflexivity|].
    exists [LogWarning "Send failed"]. split; [reflexivity|].
    rewrite andb_true_r. unfold when.
    destruct (a <? max_retry_attempts cfg - 1); simpl.
    + destruct (time_sleep_cases env (retry_delay_seconds cfg))
        as [E|[e E]]; rewrite E; simpl.
      * left. split; [|reflexivity].
        destruct (local_send_loop cfg env n (a + 1)); reflexivity.
      * right. split; [reflexivity|]. exists e. split; reflexivity.
    + left. split; [|discriminate].
      destruct (local_send_loop cfg env n (a + 1)); reflexivity.
Qed.

Lemma retry_loop_exhausted (p : path) (cfg : config) (env : collaborators)
  (a : Z) : retry_loop p cfg env 0 a = ([], Ok false).
Proof. destruct p; reflexivity. Qed.

Lemma send_loop_retry_loop (p : path) (cfg : config) (env : collaborators) :
  send_loop p cfg env =
  retry_loop p cfg env (Z.to_nat (max_retry_attempts cfg)) 0.
Proof. destruct p; reflexivity. Qed.

















Lemma notifications_app (l1 l2 : list event) :
  notifications (l1 ++ l2) = (notifications l1 + notifications l2)%nat.
Proof. unfold notifications. now rewrite filter_app, length_app. Qed.

Lemma notifications_cons (e : event) (l : list event) :
  notifications (e :: l) =
  ((if is_notify e then 1 else 0) + notifications l)%nat.
Proof. unfold notifications. simpl. now destruct (is_notify e). Qed.

Lemma notifications_logs (logs : list event) :
  forallb is_log logs = true -> notifications logs = 0%nat.
Proof.
  unfold notifications. induction logs as [|e logs IH]; simpl; [reflexivity|].
  intros H. apply andb_prop in H as [He Hl].
  destruct e; try discriminate He; simpl; auto.
Qed.

Lemma attempt_event_not_notify (p : path) (cfg : config) (a : Z) :
  is_notify (attempt_event p cfg a) = false.
Proof. destruct p; simpl; [destruct (use_orthanc cfg)|]; reflexivity. Qed.

(** The retry loop never calls the notifier. *)
Lemma retry_loop_no_notification (p : path) (cfg : config)
  (env : collaborators) (n : nat) :
  forall a, notifications (trace (retry_loop p cfg env n a)) = 0%nat.
Proof.
  induction n as [|n IH]; intros a.
  - rewrite retry_loop_exhausted. reflexivity.
  - pose proof (retry_loop_step p cfg env n a) as St.
    assert (Single : notifications [attempt_event p cfg a] = 0%nat).
    { rewrite notifications_cons, attempt_event_not_notify. reflexivity. }
    destruct (transmit_oracle p cfg env a) as [r|e];
      [destruct (path_verdict p r) as [v|e]; [destruct (satisfied v)|]|];
      try (rewrite St; exact Single).
    destruct St as [logs [Hl [[St _]|[_ [e [_ St]]]]]]; rewrite St;
      unfold trace at 1, fst; rewrite notifications_cons, attempt_event_not_notify.
    + rewrite !notifications_app, (notifications_logs logs Hl), IH.
      now destruct ((a <? max_retry_attempts cfg - 1) && waits_after p v).
    + now rewrite (notifications_logs logs Hl).
Qed.

Lemma send_loop_no_notification (p : path) (cfg : config)
  (env : collaborators) :
  notifications (trace (send_loop p cfg env)) = 0%nat.
Proof. rewrite send_loop_retry_loop. apply retry_loop_no_notification. Qed.

(** Case analysis on the answer of an oracle of [env] that the goal
    branches on. *)
Ltac oracle_cases env :=
  match goal with
  | |- context [find_file_in_drive env] =>
    destruct (find_file_in_drive env) as [[?fid|]|?]
  | |- context [download_file_from_drive env] =>
    destruct (download_file_from_drive env) as [[?lp|]|?]
  | |- context [create_file_info_for_processing env] =>
    destruct (create_file_info_for_processing env) as [[]|?]
  | |- context [process_file env] =>
    destruct (process_file env) as [[[|] ?msg [|? ?] [?|]]|?]
  | |- context [update_transmission_time env] =>
    destruct (update_transmission_time env) as [[|]|?]
  | |- context [delete_drive_file_with_user_auth env] =>
    destruct (delete_drive_file_with_user_auth env) as [[]|?]
  | |- context [cleanup_local_file env] =>
    destruct (cleanup_local_file env) as [[]|?]
  | |- context [rmtree_output_directory env] =>
    destruct (rmtree_output_directory env) as [[]|?]
  | |- context [clean_processing_folder env] =>
    destruct (clean_processing_folder env) as [[]|?]
  | |- context [complete_transfer_process env] =>
    destruct (complete_transfer_process env) as [[|]|?]
  | |- context [delete_source_file env] =>
    destruct (delete_source_file env) as [[]|?]
  | |- context [send_error_notification env ?s] =>
    destruct (send_error_notification env s) as [[]|?]
  | |- context [String.eqb ?s ""] => destruct (String.eqb s "")
  | |- context [match ?d with Some _ => _ | None => _ end] =>
    is_var d; destruct d
  end.

Ltac run_item env :=
  repeat (cbn -[send_loop notifications attempts]; try oracle_cases env).

Ltac step :=
  cbn -[send_loop deletions sheets_after_send local_after_send truthy
        is_empty].

(** ** The retry loop inside an item *)















(** [process_sheets_application] never calls the notifier. *)
Lemma sheets_path_no_notification (cfg : config) (env : collaborators)
  (app : application) :
  notifications (trace (process_sheets_application cfg env app)) = 0%nat.
Proof.
  pose proof (send_loop_no_notification SheetsPath cfg env) as HL.
  unfold process_sheets_application, sheets_after_send,
    _delete_drive_file_with_user_auth, clean_processing_directory.
  destruct (send_loop SheetsPath cfg env) as [tl [[|]|e]];
    unfold trace in HL; simpl in HL.
  all: run_item env.
  all: rewrite ?notifications_cons, ?notifications_app, ?HL; try reflexivity.
  all: cbn; rewrite ?notifications_cons, ?notifications_app, ?HL; reflexivity.
Qed.

(** C7, as amended.  For every item whose transform stage reports success
    but yields no output file, on either per-item path: the orchestrator
    returns [False], no transmit attempt is made, and "No files available
    to send" is logged as an error once the transform stage has run; on the
    sheets/push path the notifier is not called. *)
Theorem C7_no_files_to_send (cfg : config) (env : collaborators)
  (app : application) (fi : file_info) (pr : processing_result) :
  process_file env = Ok pr ->
  success pr = true ->
  processed_paths pr = [] ->
  (outcome (process_single_workflow cfg env fi) = Ok false /\
   attempts (trace (process_single_workflow cfg env fi)) = 0%nat /\
   In (LogError "No files available to send")
      (trace (process_single_workflow cfg env fi))) /\
  (outcome (process_sheets_application cfg env app) = Ok false /\
   attempts (trace (process_sheets_application cfg env app)) = 0%nat /\
   notifications (trace (process_sheets_application cfg env app)) = 0%nat /\
   (In ProcessFile (trace (process_sheets_application cfg env app)) ->
    In (LogError "No files available to send")
       (trace (process_sheets_application cfg env app)))).
Proof.
  intros Hp Hs He. destruct pr as [ok msg paths dir]. simpl in Hs, He. subst.
  split.
  - unfold process_single_workflow. rewrite Hp. cbn. repeat split. auto.
  - split; [|split; [|split]].
    + unfold process_sheets_application. rewrite Hp.
      run_item env; reflexivity.
    + unfold process_sheets_application. rewrite Hp.
      run_item env; reflexivity.
    + apply sheets_path_no_notification.
    + unfold process_sheets_application. rewrite Hp.
      run_item env; intros H; repeat (destruct H as [H|H]; try discriminate H);
        try contradiction; auto 10.
Qed.

Lemma C7_no_files_to_send_witness :
  process_file (with_process_file healthy (Ok no_files)) = Ok no_files /\
  outcome (process_sheets_application three_tries
             (with_process_file healthy (Ok no_files)) an_application)
  = Ok false /\
  notifications
    (trace (process_sheets_application three_tries
              (with_process_file healthy (Ok no_files)) an_application))
  = 0%nat.
Proof.
  destruct (C7_no_files_to_send three_tries
              (with_process_file healthy (Ok no_files)) an_application a_file
              no_files eq_refl eq_refl eq_refl) as [_ [Ho [_ [Hn _]]]].
  split; [reflexivity|]. split; [exact Ho|exact Hn].
Defined.

(** C7 as stated fails: an item without output files is failed without any
    call of the notifier. *)
Lemma C7_zero_artifacts_not_notified :
  ~ (forall (p : path) (cfg : config) (env : collaborators)
            (app : application) (fi : file_info) (pr : processing_result),
       process_file env = Ok pr ->
       success pr = true ->
       processed_paths pr = [] ->
       notifications (trace (process_item p cfg env app fi)) = 1%nat).
Proof.
  intros H.
  specialize (H SheetsPath three_tries (with_process_file healthy (Ok no_files))
                an_application a_file no_files eq_refl eq_refl eq_refl).
  discriminate H.
Qed.

Ltac in_trace :=
  cbn; rewrite ?in_app_iff; cbn; auto 12.

(** C5, as amended.  On the sheets/push path ([process_sheets_application])
    the notifier is never called.  On the local poll path
    ([process_single_workflow]) it is called when the transform stage
    reports failure and when every transmit attempt was left unsatisfied
    (exactly once if the notifier call returns), and it is not called when
    [complete_transfer_process] returns, whatever it reports and whether or
    not deleting the source file or cleaning the processing directory
    fails. *)
Theorem C5_notifier_calls (cfg : config) (env : collaborators)
  (app : application) (fi : file_info) :
  notifications (trace (process_sheets_application cfg env app)) = 0%nat /\
  (forall pr,
     process_file env = Ok pr -> success pr = false ->
     In (Notify "File processing failed")
        (trace (process_single_workflow cfg env fi)) /\
     (send_error_notification env "File processing failed" = Ok tt ->
      notifications (trace (process_single_workflow cfg env fi)) = 1%nat)) /\
  (transformed env ->
   outcome (send_loop LocalPath cfg env) = Ok false ->
   In (Notify "DICOM file send failed")
      (trace (process_single_workflow cfg env fi)) /\
   (send_error_notification env "DICOM file send failed" = Ok tt ->
    notifications (trace (process_single_workflow cfg env fi)) = 1%nat)) /\
  (send_satisfied LocalPath cfg env ->
   (exists b, complete_transfer_process env = Ok b) ->
   notifications (trace (process_single_workflow cfg env fi)) = 0%nat).
Proof.
  pose proof (send_loop_no_notification LocalPath cfg env) as HL.
  split; [apply sheets_path_no_notification|]. split; [|split].
  - intros [ok msg paths dir] Hp Hs. simpl in Hs. subst.
    unfold process_single_workflow. rewrite Hp. split.
    + run_item env; in_trace.
    + intros Hn. cbn -[send_loop notifications]. rewrite Hn. reflexivity.
  - intros [[ok msg [|path paths] dir] [Hp [Hs He]]] Ho;
      [discriminate He|]. simpl in Hs. subst.
    unfold process_single_workflow. rewrite Hp.
    destruct (send_loop LocalPath cfg env) as [tl [[|]|e]];
      try discriminate Ho.
    unfold trace in HL; simpl in HL. split.
    + run_item env; in_trace.
    + intros Hn. cbn -[notifications]. rewrite Hn. cbn -[notifications].
      rewrite notifications_cons, notifications_app, HL. reflexivity.
  - intros [_ [[[ok msg [|path paths] dir] [Hp [Hs He]]] Ho]] [b Hc];
      [discriminate He|]. simpl in Hs. subst.
    unfold process_single_workflow, local_after_send,
      clean_processing_directory.
    rewrite Hp, Hc.
    destruct (send_loop LocalPath cfg env) as [tl [[|]|e]];
      try discriminate Ho.
    unfold trace in HL; simpl in HL.
    destruct b; run_item env;
      rewrite ?notifications_cons, ?notifications_app, ?HL; reflexivity.
Qed.

Lemma C5_notifier_calls_witness :
  process_file (with_process_file healthy (Ok failed_transform))
  = Ok failed_transform /\
  success failed_transform = false /\
  notifications
    (trace (process_single_workflow three_tries
              (with_process_file healthy (Ok failed_transform)) a_file))
  = 1%nat.
Proof.
  destruct (C5_notifier_calls three_tries
              (with_process_file healthy (Ok failed_transform))
              an_application a_file) as [_ [Hf _]].
  destruct (Hf failed_transform eq_refl eq_refl) as [_ Hn].
  split; [reflexivity|]. split; [reflexivity|]. exact (Hn eq_refl).
Defined.

(** C5 as stated fails: on the sheets/push path a fetch failure is not
    notified. *)
Lemma C5_sheets_fetch_failure_not_notified :
  ~ (forall (p : path) (cfg : config) (env : collaborators)
            (app : application) (fi : file_info),
       p = SheetsPath ->
       find_file_in_drive env = Ok None ->
       (1 <= notifications (trace (process_item p cfg env app fi)))%nat).
Proof.
  intros H.
  specialize (H SheetsPath three_tries (with_find_file healthy (Ok None))
                an_application a_file eq_refl eq_refl).
  cbn in H. lia.
Qed.

(** C4, as amended.  On the sheets/push path, once the send was satisfied
    the item is a success whatever [update_transmission_time] returns and
    whether or not deleting the Drive file or cleaning the work directories
    fails, provided [update_transmission_time] and [cleanup_local_file]
    return.  On the local poll path, once the send was satisfied the item
    is a success exactly when [complete_transfer_process] reports success;
    failures of deleting the source file and of cleaning the processing
    directory do not change that. *)
Theorem C4_housekeeping_after_send (cfg : config) (env : collaborators)
  (app : application) (fi : file_info) :
  (send_satisfied SheetsPath cfg env ->
   (exists b, update_transmission_time env = Ok b) ->
   cleanup_local_file env = Ok tt ->
   outcome (process_sheets_application cfg env app) = Ok true) /\
  (send_satisfied LocalPath cfg env ->
   (outcome (process_single_workflow cfg env fi) = Ok true <->
    complete_transfer_process env = Ok true)).
Proof.
  split.
  - intros [[fid [lp [Hf [Tf [Hd [Td Hc]]]]]]
            [[[ok msg [|path paths] dir] [Hp [Hs He]]] Ho]] [b Hu] Hl;
      [discriminate He|]. simpl in Hs. subst.
    unfold process_sheets_application, sheets_after_send,
      _delete_drive_file_with_user_auth, clean_processing_directory.
    rewrite Hf, Hd, Hc, Hp, Hu, Hl.
    destruct (send_loop SheetsPath cfg env) as [tl [[|]|e]];
      try discriminate Ho.
    cbn -[truthy]. rewrite Tf, Td.
    destruct b; run_item env; reflexivity.
  - intros [_ [[[ok msg [|path paths] dir] [Hp [Hs He]]] Ho]];
      [discriminate He|]. simpl in Hs. subst.
    unfold process_single_workflow, local_after_send,
      clean_processing_directory.
    rewrite Hp.
    destruct (send_loop LocalPath cfg env) as [tl [[|]|e]];
      try discriminate Ho.
    run_item env; split; intros H; try reflexivity; discriminate H.
Qed.

Lemma C4_housekeeping_after_send_witness :
  send_satisfied SheetsPath three_tries (with_cleanup_failures healthy) /\
  outcome (process_sheets_application three_tries
             (with_cleanup_failures healthy) an_application) = Ok true.
Proof.
  assert (S : send_satisfied SheetsPath three_tries
                (with_cleanup_failures healthy)).
  { split; [|split].
    - exists (Some "drive-id"), (Some "downloads/a.zip"). repeat split.
    - exists two_files. repeat split.
    - reflexivity. }
  split; [exact S|].
  destruct (C4_housekeeping_after_send three_tries
              (with_cleanup_failures healthy) an_application a_file)
    as [Sheets _].
  apply Sheets; [exact S| |reflexivity].
  exists false. reflexivity.
Defined.

(** C4 as stated fails: on the local poll path a satisfied send followed by
    a failing [complete_transfer_process] makes the item a failure. *)
Lemma C4_local_completion_failure_fails_item :
  ~ (forall (p : path) (cfg : config) (env : collaborators)
            (app : application) (fi : file_info),
       send_satisfied p cfg env ->
       outcome (process_item p cfg env app fi) = Ok true).
Proof.
  intros H.
  assert (S : send_satisfied LocalPath three_tries
                (with_complete_transfer healthy (Ok false))).
  { split; [exact I|]. split; [|reflexivity].
    exists two_files. repeat split. }
  specialize (H LocalPath three_tries
                (with_complete_transfer healthy (Ok false))
                an_application a_file S).
  discriminate H.
Qed.

(** ** A cycle against an unreachable destination *)

Lemma observe_without_signal (sch : schedule) (clock : Z) (m : manager) :
  signals sch = [] -> observe sch clock m = m.
Proof. unfold observe. now intros ->. Qed.



Lemma run_cycle_keeps_running (cfg : config) (w : cycle_env) (m : manager) :
  running (snd (run_cycle cfg w m)) = running m.
Proof.
  unfold run_cycle. now destruct (run_full_workflow cfg w) as [tr [stats|e]].
Qed.





(** ** Lifetime counters when a cycle raises *)



(** ** Cancellation of the polling scheduler *)

Lemma observe_after_signal (sch : schedule) (T clock : Z) (m : manager) :
  In T (signals sch) -> T <= clock -> running (observe sch clock m) = false.
Proof.
  intros Hin Hle. unfold observe.
  replace (existsb (fun t => t <=? clock) (signals sch)) with true;
    [reflexivity|].
  symmetry. apply existsb_exists. exists T. split; [exact Hin|].
  now apply Z.leb_le.
Qed.







(** ** The push endpoint *)

Lemma lookup_required (members : list (string * json)) :
  match lookup "identifier" members, lookup "filename" members,
        lookup "row_number" members with
  | Some _, Some _, Some _ =>
    missing_from required_fields (JObj members) = Ok []
  | _, _, _ =>
    exists f rest, missing_from required_fields (JObj members) = Ok (f :: rest)
  end.
Proof.
  unfold required_fields; cbn [missing_from py_in].
  destruct (lookup "identifier" members), (lookup "filename" members),
    (lookup "row_number" members); cbn; eauto.
Qed.

Lemma lookup_in_empty (k : string) (members : list (string * json)) :
  is_empty members = true -> lookup k members = None.
Proof. destruct members; [reflexivity|discriminate]. Qed.

(** What [handle_payload] answers to a JSON object. *)
Lemma handle_payload_object (srv : server) (req : request) (now : string)
  (members : list (string * json)) :
  get_json req = Ok (JObj members) ->
  match lookup "identifier" members, lookup "filename" members,
        lookup "row_number" members with
  | Some ident, Some _, Some _ =>
    match workflow_manager srv with
    | None =>
      handle_payload srv req now =
      ([LogError "Workflow manager not configured"],
       Ok (mk_response 503 (error_body "System not ready")))
    | Some _ =>
      handle_payload srv req now =
      ([StartThread (JObj members)],
       Ok (mk_response 202 (accepted_body ident now)))
    end
  | _, _, _ =>
    exists logged msg,
      handle_payload srv req now =
      ([LogError logged], Ok (mk_response 400 (error_body msg)))
  end.
Proof.
  intros Hj. unfold handle_payload. rewrite Hj.
  cbn [lift bind py_not app].
  destruct (is_empty members) eqn:Em.
  - rewrite !(lookup_in_empty _ members Em). cbn. eauto.
  - pose proof (lookup_required members) as Hm.
    destruct (lookup "identifier" members) as [ident|] eqn:Li;
      destruct (lookup "filename" members) eqn:Lf;
      destruct (lookup "row_number" members) eqn:Lr;
      try (match type of Hm with
           | ex _ => destruct Hm as [f [rest Hm]]; rewrite Hm; cbn; eauto
           end).
    rewrite Hm. cbn [lift bind is_empty negb app].
    destruct (workflow_manager srv); cbn; [|reflexivity].
    rewrite Li. reflexivity.
Qed.

Lemma handle_post_checked (hmac : string -> string -> string) (srv : server)
  (req : request) (now : string) (tr : list event) (r : response) :
  passes_signature_check hmac srv req ->
  handle_payload srv req now = (tr, Ok r) ->
  handle_post hmac srv req now = (tr, Ok r).
Proof.
  intros [Off|[s [Hs [Ne Hv]]]] Hp; unfold handle_post.
  - rewrite Off, Hp. reflexivity.
  - rewrite Hs, Ne, Hv, Hp. cbn. now destruct (enable_auth srv) as [[|]|].
Qed.

(** C8, as amended.  For every POST to /webhook/upload whose body is a JSON
    object and that gets past the optional signature check: if one of
    [identifier], [filename], [row_number] is absent, the answer is 400 and
    no processing thread is started; if all are present and no workflow
    manager is wired, the answer is 503 and no thread is started; if all
    are present and a manager is wired, the answer is 202 with a body
    holding the status, the identifier of the request and the time stamp,
    and the handler has done nothing but start one processing thread for
    the payload. *)
Theorem C8_upload_notification (hmac : string -> string -> string)
  (srv : server) (req : request) (now : string)
  (members : list (string * json)) :
  method req = POST ->
  get_json req = Ok (JObj members) ->
  passes_signature_check hmac srv req ->
  ((exists f, In f required_fields /\ lookup f members = None) ->
   (exists b,
      outcome (handle_upload_notification hmac srv req now)
      = Ok (mk_response 400 b)) /\
   threads_started (trace (handle_upload_notification hmac srv req now)) = []) /\
  ((forall f, In f required_fields -> lookup f members <> None) ->
   workflow_manager srv = None ->
   outcome (handle_upload_notification hmac srv req now)
   = Ok (mk_response 503 (error_body "System not ready")) /\
   threads_started (trace (handle_upload_notification hmac srv req now)) = []) /\
  ((forall f, In f required_fields -> lookup f members <> None) ->
   workflow_manager srv <> None ->
   exists ident,
     lookup "identifier" members = Some ident /\
     handle_upload_notification hmac srv req now =
     ([StartThread (JObj members)],
      Ok (mk_response 202 (accepted_body ident now)))).
Proof.
  intros Hm Hj Hc. unfold handle_upload_notification. rewrite Hm.
  pose proof (handle_payload_object srv req now members Hj) as Hp.
  split; [|split].
  - intros [f [Hf Hn]].
    assert (Bad : exists logged msg,
              handle_payload srv req now =
              ([LogError logged], Ok (mk_response 400 (error_body msg)))).
    { destruct Hf as [<-|[<-|[<-|[]]]]; rewrite Hn in Hp;
        repeat match type of Hp with
               | match ?x with _ => _ end => destruct x
               end; exact Hp. }
    destruct Bad as [logged [msg Hb]].
    rewrite (handle_post_checked hmac srv req now _ _ Hc Hb).
    split; [now exists (error_body msg)|reflexivity].
  - intros Hall Hw.
    destruct (lookup "identifier" members) eqn:Li;
      [|exfalso; apply (Hall "identifier"); cbn; auto].
    destruct (lookup "filename" members) eqn:Lf;
      [|exfalso; apply (Hall "filename"); cbn; auto].
    destruct (lookup "row_number" members) eqn:Lr;
      [|exfalso; apply (Hall "row_number"); cbn; auto].
    rewrite Hw in Hp.
    rewrite (handle_post_checked hmac srv req now _ _ Hc Hp).
    split; reflexivity.
  - intros Hall Hw.
    destruct (lookup "identifier" members) as [ident|] eqn:Li;
      [|exfalso; apply (Hall "identifier"); cbn; auto].
    destruct (lookup "filename" members) eqn:Lf;
      [|exfalso; apply (Hall "filename"); cbn; auto].
    destruct (lookup "row_number" members) eqn:Lr;
      [|exfalso; apply (Hall "row_number"); cbn; auto].
    destruct (workflow_manager srv) as [m|]; [|contradiction].
    exists ident. split; [reflexivity|].
    exact (handle_post_checked hmac srv req now _ _ Hc Hp).
Qed.

Lemma C8_upload_notification_witness :
  passes_signature_check toy_hmac wired_server (post None upload_payload) /\
  handle_upload_notification toy_hmac wired_server (post None upload_payload)
    "2026-01-01T00:00:00"
  = ([StartThread upload_payload],
     Ok (mk_response 202 (accepted_body (JStr "ID-7") "2026-01-01T00:00:00"))).
Proof.
  assert (Hc : passes_signature_check toy_hmac wired_server
                 (post None upload_payload)) by (left; reflexivity).
  split; [exact Hc|].
  destruct (C8_upload_notification toy_hmac wired_server
              (post None upload_payload) "2026-01-01T00:00:00"
              [("identifier", JStr "ID-7"); ("filename", JStr "scan.zip");
               ("row_number", JNum 7)] eq_refl eq_refl Hc)
    as [_ [_ Accepted]].
  destruct Accepted as [ident [Hi Hr]].
  - intros f [<-|[<-|[<-|[]]]]; discriminate.
  - discriminate.
  - injection Hi as <-. exact Hr.
Defined.

(** C8 as stated fails: with the signature check on (the default) and no
    signature header, a request whose body lacks [filename] is answered
    401, not 400. *)
Lemma C8_unsigned_request_answered_401 :
  ~ (forall (hmac : string -> string -> string) (srv : server)
            (req : request) (now : string) (members : list (string * json)),
       method req = POST ->
       get_json req = Ok (JObj members) ->
       lookup "filename" members = None ->
       exists b,
         outcome (handle_upload_notification hmac srv req now)
         = Ok (mk_response 400 b)).
Proof.
  intros H.
  destruct (H toy_hmac fresh_server (post None payload_without_filename)
              "2026-01-01T00:00:00"
              [("identifier", JStr "ID-7"); ("row_number", JNum 7)]
              eq_refl eq_refl eq_refl) as [b Hb].
  discriminate Hb.
Qed.

(** ** Lifetime counters on the push path *)

(** C3 fails on the code.  A valid notification whose item is processed
    successfully leaves the lifetime counters of the wired manager at zero,
    while a scheduler cycle processing the same single item counts it as
    processed and successful. *)
Theorem C3_push_path_leaves_lifetime_counters :
  outcome (fst (process_upload_async three_tries healthy new_manager
                  upload_payload)) = Ok tt /\
  In (SendBatch 0)
     (trace (fst (process_upload_async three_tries healthy new_manager
                    upload_payload))) /\
  snd (process_upload_async three_tries healthy new_manager upload_payload)
  = mk_manager true 0 0 0 /\
  snd (run_cycle three_tries one_item new_manager) = mk_manager true 1 1 0.
Proof. vm_compute. intuition. Qed.

(** * Further properties of the code *)

(** ** Exceptions at the boundary of the per-item paths *)

Lemma process_sheets_application_total (cfg : config) (env : collaborators)
  (app : application) :
  exists b, outcome (process_sheets_application cfg env app) = Ok b.
Proof.
  unfold process_sheets_application, sheets_after_send,
    _delete_drive_file_with_user_auth, clean_processing_directory.
  destruct (send_loop SheetsPath cfg env) as [tl [[|]|e]];
    run_item env; eauto.
Qed.

(** X1.  [process_sheets_application] never raises: whatever its
    collaborators do, it returns [True] or [False]. *)
Theorem sheets_item_never_raises (cfg : config) (env : collaborators)
  (app : application) :
  exists b, outcome (process_sheets_application cfg env app) = Ok b.
Proof. exact (process_sheets_application_total cfg env app). Qed.

Lemma lift_bind {A B : Type} (a : A) (k : A -> M B) :
  bind (lift (Ok a)) k = k a.
Proof. unfold lift, bind. now destruct (k a). Qed.

(** How the [try] statement of [process_single_workflow] can raise. *)
Lemma local_try_raises (cfg : config) (env : collaborators) (fi : file_info)
  (e : string) :
  outcome (process_single_workflow cfg env fi) = Raise e ->
  send_error_notification env "Workflow execution error" = Raise e /\
  In (Notify "Workflow execution error")
     (trace (process_single_workflow cfg env fi)).
Proof.
  unfold process_single_workflow, local_after_send, clean_processing_directory,
    file_info_dict.
  destruct (send_error_notification env "Workflow execution error")
    as [[]|e'] eqn:Hw;
    destruct (send_loop LocalPath cfg env) as [tl [[|]|e2]];
    run_item env; intros H; try discriminate H;
    injection H as <-; (split; [reflexivity|in_trace]).
Qed.

(** X2.  [process_single_workflow] raises in two ways only.  A read of
    [file_info['record']['id']] or [file_info['original_filename']], made
    before the [try], fails: then nothing has been done, no collaborator
    was called and the notifier was not.  Or the notification sent from
    its [except] clause raises: then that exception leaves the function,
    after the notifier was called with subject "Workflow execution error".
    For an entry in the format of the downloader only the second can
    happen. *)
Theorem local_item_raises_through_notifier (cfg : config)
  (env : collaborators) (d : json) (e : string) :
  (outcome (process_single_workflow cfg env d) = Raise e ->
   (trace (process_single_workflow cfg env d) = [] /\
    (py_getitem d "record" = Raise e \/
     (exists record,
        py_getitem d "record" = Ok record /\
        py_getitem record "id" = Raise e) \/
     py_getitem d "original_filename" = Raise e)) \/
   (send_error_notification env "Workflow execution error" = Raise e /\
    In (Notify "Workflow execution error")
       (trace (process_single_workflow cfg env d)))) /\
  (forall fi : file_info,
     outcome (process_single_workflow cfg env fi) = Raise e ->
     send_error_notification env "Workflow execution error" = Raise e /\
     In (Notify "Workflow execution error")
        (trace (process_single_workflow cfg env fi))).
Proof.
  split; [|intros fi; apply local_try_raises].
  unfold process_single_workflow.
  destruct (py_getitem d "record") as [record|e1] eqn:R1;
    [rewrite lift_bind
    |intros H; injection H as <-; left; split; [reflexivity|now left]].
  destruct (py_getitem record "id") as [i|e1] eqn:R2;
    [rewrite lift_bind
    |intros H; injection H as <-; left; split; [reflexivity|];
     right; left; now exists record].
  destruct (py_getitem d "original_filename") as [f|e1] eqn:R3;
    [rewrite lift_bind
    |intros H; injection H as <-; left; split; [reflexivity|];
     right; now right].
  intros H. right. revert H.
  pose proof (local_try_raises cfg env (mk_file_info JNull "") e) as T.
  unfold process_single_workflow in T.
  change (py_getitem (mk_file_info JNull "") "record")
    with (Ok (JObj [("id", JNull)])) in T.
  rewrite lift_bind in T.
  change (py_getitem (JObj [("id", JNull)]) "id") with (Ok JNull) in T.
  rewrite lift_bind in T.
  change (py_getitem (mk_file_info JNull "") "original_filename")
    with (Ok (JStr "")) in T.
  rewrite lift_bind in T. exact T.
Qed.

Lemma local_item_raises_through_notifier_witness :
  outcome (process_single_workflow three_tries healthy (JObj []))
  = Raise "'record'" /\
  trace (process_single_workflow three_tries healthy (JObj [])) = [] /\
  outcome (process_single_workflow three_tries notifier_down a_file)
  = Raise "smtp down" /\
  send_error_notification notifier_down "Workflow execution error"
  = Raise "smtp down".
Proof.
  destruct (local_item_raises_through_notifier three_tries healthy (JObj [])
              "'record'") as [Any _].
  destruct (Any eq_refl) as [[Ht _]|[Hn _]]; [|discriminate Hn].
  destruct (local_item_raises_through_notifier three_tries notifier_down
              a_file "smtp down") as [_ Entry].
  destruct (Entry a_file eq_refl) as [Hn _].
  split; [reflexivity|]. split; [exact Ht|].
  split; [reflexivity|exact Hn].
Defined.

(** ** The retry delay and the bounds of the retry loop *)








(** X4.  With [max_retry_attempts <= 0] the transmit stage is never
    attempted and no item succeeds, on either path and whatever the
    collaborators do. *)
Theorem no_retry_budget_no_attempt (p : path) (cfg : config)
  (env : collaborators) (app : application) (fi : file_info) :
  max_retry_attempts cfg <= 0 ->
  attempts (trace (process_item p cfg env app fi)) = 0%nat /\
  outcome (process_item p cfg env app fi) <> Ok true.
Proof.
  intros HN.
  assert (E : forall q, send_loop q cfg env = ([], Ok false)).
  { intros q. rewrite send_loop_retry_loop.
    replace (Z.to_nat (max_retry_attempts cfg)) with 0%nat by lia.
    apply retry_loop_exhausted. }
  destruct p; simpl.
  - unfold process_sheets_application. rewrite E.
    run_item env; split; (reflexivity || discriminate).
  - unfold process_single_workflow. rewrite E.
    run_item env; split; (reflexivity || discriminate).
Qed.

Lemma no_retry_budget_no_attempt_witness :
  max_retry_attempts (mk_config 0 30 false true) <= 0 /\
  outcome (process_item SheetsPath (mk_config 0 30 false true) healthy
             an_application a_file) = Ok false.
Proof.
  assert (HN : max_retry_attempts (mk_config 0 30 false true) <= 0)
    by (simpl; lia).
  destruct (no_retry_budget_no_attempt SheetsPath (mk_config 0 30 false true)
              healthy an_application a_file HN) as [_ Hne].
  split; [exact HN|].
  destruct (outcome (process_item SheetsPath (mk_config 0 30 false true)
                       healthy an_application a_file)) as [[|]|e] eqn:E;
    [now elim Hne|reflexivity|discriminate E].
Defined.

(** X5.  A send result that reports no file at all ([total_files = 0] and
    [successful = 0]) is judged satisfied on both paths.  On the
    sheets/push path a result with [total_files = 0] and [successful > 0]
    makes the computation of the success rate raise: the item fails after
    that single attempt, without retry. *)
Theorem send_result_without_files (cfg : config) (env : collaborators)
  (app : application) (r : send_result) :
  total_files r = 0 ->
  (successful r = 0 ->
   judged_satisfied SheetsPath r /\ judged_satisfied LocalPath r) /\
  (0 < successful r ->
   transmit_oracle SheetsPath cfg env 0 = Ok r ->
   1 <= max_retry_attempts cfg ->
   send_loop SheetsPath cfg env =
   ([attempt_event SheetsPath cfg 0], Raise "division by zero") /\
   outcome (process_sheets_application cfg env app) = Ok false /\
   (attempts (trace (process_sheets_application cfg env app)) <= 1)%nat).
Proof.
  intros Ht. split.
  - intros Hs. split; exists AllSent; simpl;
      unfold sheets_verdict, local_verdict; rewrite Hs, Ht; auto.
  - intros Hs Ho HN.
    assert (V : sheets_verdict r = Raise "division by zero").
    { unfold sheets_verdict, success_rate. rewrite Ht.
      destruct (Z.eqb_spec (successful r) 0) as [E|_]; [lia|].
      destruct (Z.gtb_spec (successful r) 0) as [_|G]; [reflexivity|lia]. }
    assert (L : send_loop SheetsPath cfg env =
                ([attempt_event SheetsPath cfg 0], Raise "division by zero")).
    { rewrite send_loop_retry_loop.
      destruct (Z.to_nat (max_retry_attempts cfg)) as [|n] eqn:En; [lia|].
      pose proof (retry_loop_step SheetsPath cfg env n 0) as St.
      rewrite Ho in St. simpl path_verdict in St. rewrite V in St. exact St. }
    split; [exact L|].
    unfold process_sheets_application. rewrite L.
    unfold attempt_event. clear L Ho.
    destruct (use_orthanc cfg); split;
      run_item env; try reflexivity; unfold attempts; simpl; lia.
Qed.

Lemma send_result_without_files_witness :
  total_files ghost_files = 0 /\
  outcome (process_sheets_application three_tries
             (with_send_batch healthy (fun _ => Ok ghost_files))
             an_application) = Ok false /\
  send_loop SheetsPath three_tries
    (with_send_batch healthy (fun _ => Ok ghost_files))
  = ([SendBatch 0], Raise "division by zero").
Proof.
  destruct (send_result_without_files three_tries
              (with_send_batch healthy (fun _ => Ok ghost_files))
              an_application ghost_files eq_refl) as [_ Rate].
  destruct Rate as [Hl [Ho _]].
  - simpl; lia.
  - reflexivity.
  - simpl; lia.
  - split; [reflexivity|]. split; [exact Ho|exact Hl].
Defined.

(** ** Statistics of a cycle *)

Lemma count_item_consistent (stats : cycle_stats) (ok : bool) :
  consistent stats ->
  consistent (count_item stats ok) /\
  processed_files (count_item stats ok) = processed_files stats + 1 /\
  pending (count_item stats ok) = pending stats.
Proof.
  unfold consistent. intros [Hp [Hs Hf]]. destruct ok; simpl; lia.
Qed.

(** The loop over the pending items keeps the counters consistent; it
    counts every item when it runs to its end, and only the items before
    the one whose processing raised otherwise. *)
Lemma process_each_counts {A : Type} (process : nat -> A -> M bool)
  (items : list A) :
  forall i stats tr stats' r,
    consistent stats ->
    process_each process items i stats = (tr, (stats', r)) ->
    consistent stats' /\
    pending stats' = pending stats /\
    processed_files stats <= processed_files stats'
      <= processed_files stats + Z.of_nat (List.length items) /\
    (forall u, r = Ok u ->
       processed_files stats' =
       processed_files stats + Z.of_nat (List.length items)) /\
    (forall e, r = Raise e ->
       processed_files stats' <
       processed_files stats + Z.of_nat (List.length items)).
Proof.
  induction items as [|x rest IH]; intros i stats tr stats' r Hc E.
  - simpl in E. injection E as <- <- <-. simpl.
    repeat split; try apply Hc; try lia; intros; try discriminate; lia.
  - cbn [process_each] in E.
    destruct (process i x) as [tr1 [ok|e1]].
    + destruct (process_each process rest (S i) (count_item stats ok))
        as [tr2 [stats2 r2]] eqn:E2.
      injection E as <- <- <-.
      destruct (count_item_consistent stats ok Hc) as [Hc1 [Hp1 Hq1]].
      destruct (IH _ _ _ _ _ Hc1 E2) as [Hc2 [Hq2 [Hb [Hall Hexc]]]].
      cbn [List.length]. rewrite Nat2Z.inj_succ.
      split; [exact Hc2|]. split; [congruence|]. split; [lia|]. split.
      * intros u Hu. specialize (Hall u Hu). lia.
      * intros e He. specialize (Hexc e He). lia.
    + injection E as <- <- <-. cbn [List.length]. rewrite Nat2Z.inj_succ.
      split; [exact Hc|]. split; [reflexivity|]. split; [lia|]. split.
      * intros u Hu. discriminate Hu.
      * intros e He. lia.
Qed.

Lemma zero_stats_consistent : consistent (mk_stats 0 0 0 0).
Proof. unfold consistent. simpl. lia. Qed.

Lemma set_pending_consistent (stats : cycle_stats) (n : Z) :
  consistent stats -> consistent (set_pending stats n).
Proof. unfold consistent. now destruct stats. Qed.

Lemma sheets_items_never_raise (cfg : config) (w : cycle_env)
  (apps : list application) :
  forall i stats tr stats' r,
    process_each
      (fun i => process_sheets_application cfg (item_collaborators w i))
      apps i stats = (tr, (stats', r)) ->
    r = Ok tt.
Proof.
  induction apps as [|x rest IH]; intros i stats tr stats' r E.
  - simpl in E. now injection E as <- <- <-.
  - cbn [process_each] in E.
    destruct (process_sheets_application_total cfg (item_collaborators w i) x)
      as [b Hb].
    destruct (process_sheets_application cfg (item_collaborators w i) x)
      as [tr1 o]. simpl in Hb. subst o.
    destruct (process_each _ rest (S i) (count_item stats b))
      as [tr2 [stats2 r2]] eqn:E2.
    injection E as <- <- <-. exact (IH _ _ _ _ _ E2).
Qed.

Ltac last_event :=
  match goal with
  | |- exists pre, (?l, _) = _ /\ _ => exists (removelast l)
  end.

Lemma run_sheets_workflow_statistics (cfg : config) (w : cycle_env) :
  exists stats pre,
    run_sheets_workflow cfg w = (pre ++ [LogStatistics stats], Ok stats) /\
    consistent stats /\
    processed_files stats <= pending stats /\
    (forall apps,
       test_connection w = Ok true ->
       get_pending_applications w = Ok apps ->
       pending stats = Z.of_nat (List.length apps) /\
       processed_files stats = Z.of_nat (List.length apps)).
Proof.
  unfold run_sheets_workflow, sheets_cycle_body.
  destruct (test_connection w) as [[|]|e].
  - destruct (get_pending_applications w) as [apps|e].
    + destruct apps as [|a apps].
      * cbn. exists (mk_stats 0 0 0 0). exists [TestConnection; GetPendingApplications].
        split; [reflexivity|].
        split; [apply zero_stats_consistent|]. split; [simpl; lia|].
        intros apps _ H. injection H as <-. split; reflexivity.
      * cbn [is_empty].
        destruct (process_each
                    (fun i => process_sheets_application cfg
                                (item_collaborators w i))
                    (a :: apps) 0%nat
                    (set_pending (mk_stats 0 0 0 0)
                       (Z.of_nat (List.length (a :: apps)))))
          as [tr [stats r]] eqn:E.
        pose proof (sheets_items_never_raise cfg w _ _ _ _ _ _ E) as ->.
        destruct (process_each_counts _ _ _ _ _ _ _
                    (set_pending_consistent _ _ zero_stats_consistent) E)
          as [Hc [Hq [Hb [Hall _]]]].
        specialize (Hall tt eq_refl). simpl in Hq, Hall.
        cbn. exists stats.
        exists (TestConnection :: GetPendingApplications :: tr).
        split.
        { rewrite <- app_assoc. reflexivity. }
        split; [exact Hc|]. split; [simpl in *; lia|].
        intros apps' _ H. injection H as <-. simpl in *. lia.
    + cbn. exists (mk_stats 0 0 0 0). last_event. split; [reflexivity|].
      split; [apply zero_stats_consistent|]. split; [simpl; lia|].
      intros apps _ H. discriminate H.
  - cbn. exists (mk_stats 0 0 0 0). last_event. split; [reflexivity|].
    split; [apply zero_stats_consistent|]. split; [simpl; lia|].
    intros apps H. discriminate H.
  - cbn. exists (mk_stats 0 0 0 0). last_event. split; [reflexivity|].
    split; [apply zero_stats_consistent|]. split; [simpl; lia|].
    intros apps H. discriminate H.
Qed.

(** X6.  [run_sheets_workflow] never raises.  The statistics it returns
    are the ones it logs as its last action; they add up
    ([processed = successful + failed], none negative) and, once the list
    of pending applications was obtained, every pending application is
    counted as processed. *)
Theorem sheets_cycle_statistics (cfg : config) (w : cycle_env) :
  exists stats pre,
    run_sheets_workflow cfg w = (pre ++ [LogStatistics stats], Ok stats) /\
    consistent stats /\
    processed_files stats <= pending stats /\
    (forall apps,
       test_connection w = Ok true ->
       get_pending_applications w = Ok apps ->
       pending stats = Z.of_nat (List.length apps) /\
       processed_files stats = Z.of_nat (List.length apps)).
Proof. exact (run_sheets_workflow_statistics cfg w). Qed.

Lemma sheets_cycle_statistics_witness :
  exists stats,
    outcome (run_sheets_workflow three_tries one_item) = Ok stats /\
    pending stats = 1 /\ processed_files stats = 1.
Proof.
  destruct (sheets_cycle_statistics three_tries one_item)
    as [stats [pre [E [_ [_ All]]]]].
  destruct (All [an_application] eq_refl eq_refl) as [Hp Hq].
  exists stats. rewrite E. repeat split; assumption.
Defined.

(** X7.  [run_local_workflow] logs its statistics as its last action on
    every path, also when it raises; the statistics add up.  It raises only
    when the notification of a critical error raises, with that
    exception, and otherwise returns the statistics it logged. *)
Theorem local_cycle_statistics (cfg : config) (w : cycle_env) :
  exists stats pre r,
    run_local_workflow cfg w = (pre ++ [LogStatistics stats], r) /\
    consistent stats /\
    processed_files stats <= pending stats /\
    (r = Ok stats \/
     exists e, r = Raise e /\ system_error_notification w = Raise e /\
               In (Notify "System critical error") pre).
Proof.
  unfold run_local_workflow.
  assert (B : exists tr stats r,
             local_cycle_body cfg w (mk_stats 0 0 0 0) = (tr, (stats, r)) /\
             consistent stats /\ processed_files stats <= pending stats).
  { unfold local_cycle_body.
    destruct (test_connection w) as [[|]|e];
      try (do 3 eexists; split; [reflexivity|];
           split; [apply zero_stats_consistent|simpl; lia]).
    destruct (download_pending_files w) as [files|e];
      try (do 3 eexists; split; [reflexivity|];
           split; [apply zero_stats_consistent|simpl; lia]).
    destruct files as [|f files].
    { do 3 eexists. split; [reflexivity|].
      split; [apply zero_stats_consistent|simpl; lia]. }
    cbn [is_empty].
    destruct (process_each _ (f :: files) 0%nat _) as [tr [stats r]] eqn:E.
    destruct (process_each_counts _ _ _ _ _ _ _
                (set_pending_consistent _ _ zero_stats_consistent) E)
      as [Hc [Hq [Hb _]]].
    assert (Hle : processed_files stats <= pending stats)
      by (simpl in Hq, Hb; lia).
    destruct r as [u|e].
    - destruct (cleanup_old_files w ;;;
                when (has_clean_downloads w)
                  (call CleanDownloads (clean_downloads w))) as [tr' r'].
      do 3 eexists. split; [reflexivity|]. split; assumption.
    - do 3 eexists. split; [reflexivity|]. split; assumption. }
  destruct B as [tr [stats [r [-> [Hc Hle]]]]].
  exists stats.
  destruct r as [[]|e].
  - exists tr, (Ok stats). cbn. rewrite app_nil_r.
    split; [reflexivity|]. split; [exact Hc|]. split; [exact Hle|].
    now left.
  - destruct (system_error_notification w) as [[]|e'] eqn:Hn.
    + cbn. rewrite ?app_nil_r.
      match goal with
      | |- exists pre r, (?p ++ [_], ?o) = _ /\ _ => exists p, o
      end.
      split; [reflexivity|]. split; [exact Hc|]. split; [exact Hle|].
      now left.
    + cbn. rewrite ?app_nil_r.
      match goal with
      | |- exists pre r, (?p ++ [_], ?o) = _ /\ _ => exists p, o
      end.
      split; [reflexivity|]. split; [exact Hc|]. split; [exact Hle|].
      right. exists e'. split; [reflexivity|]. split; [reflexivity|].
      rewrite in_app_iff. right. cbn. auto.
Qed.

(** The loop stops at the first item whose processing raises: the items
    before it are counted, that item and the ones after it are not. *)
Lemma process_each_stops {A : Type} (process : nat -> A -> M bool)
  (items : list A) :
  forall i stats k x e,
    nth_error items k = Some x ->
    (forall j y, (j < k)%nat -> nth_error items j = Some y ->
       exists b, outcome (process (i + j)%nat y) = Ok b) ->
    outcome (process (i + k)%nat x) = Raise e ->
    exists tr stats',
      process_each process items i stats = (tr, (stats', Raise e)) /\
      processed_files stats' = processed_files stats + Z.of_nat k /\
      pending stats' = pending stats.
Proof.
  induction items as [|y rest IH]; intros i stats k x e Hk Hbefore Hx.
  - destruct k; discriminate Hk.
  - cbn [process_each]. destruct k as [|k].
    + injection Hk as ->. rewrite Nat.add_0_r in Hx.
      destruct (process i x) as [tr1 o]. simpl in Hx. subst o.
      do 2 eexists. split; [reflexivity|]. split; [simpl; lia|reflexivity].
    + destruct (Hbefore 0%nat y) as [b Hb]; [lia|reflexivity|].
      rewrite Nat.add_0_r in Hb.
      destruct (process i y) as [tr1 o]. simpl in Hb. subst o.
      destruct (IH (S i) (count_item stats b) k x e Hk) as [tr [st [E [Hp Hq]]]].
      * intros j z Hj Hz. replace (S i + j)%nat with (i + S j)%nat by lia.
        apply Hbefore; [lia|exact Hz].
      * replace (S i + k)%nat with (i + S k)%nat by lia. exact Hx.
      * rewrite E. do 2 eexists. split; [reflexivity|].
        rewrite Hp, Hq. destruct b; simpl; split; (lia || reflexivity).
Qed.

(** X8.  When the processing of a pending file raises (which it does only
    when its error notification raises), [run_local_workflow] abandons the
    rest of the batch: the files before it are counted as processed, that
    file and the later ones are not, no clean-up follows, and the cycle
    ends with the critical-error log, the system notification and the
    statistics. *)
Theorem local_batch_stops_at_raising_item (cfg : config) (w : cycle_env)
  (files : list file_info) (k : nat) (f : file_info) (e : string) :
  test_connection w = Ok true ->
  download_pending_files w = Ok files ->
  nth_error files k = Some f ->
  (forall j y, (j < k)%nat -> nth_error files j = Some y ->
     exists b,
       outcome (process_single_workflow cfg (item_collaborators w j) y)
       = Ok b) ->
  outcome (process_single_workflow cfg (item_collaborators w k) f)
  = Raise e ->
  exists stats,
    run_local_workflow cfg w =
    ([TestConnection; DownloadPendingFiles] ++
     fst (process_each
            (fun i (fi : file_info) =>
                   process_single_workflow cfg (item_collaborators w i) fi)
            files 0%nat
            (set_pending (mk_stats 0 0 0 0) (Z.of_nat (List.length files)))) ++
     [LogError ("Critical error during workflow execution: " ++ e)%string;
      Notify "System critical error"; LogStatistics stats],
     match system_error_notification w with
     | Ok _ => Ok stats
     | Raise e' => Raise e'
     end) /\
    pending stats = Z.of_nat (List.length files) /\
    processed_files stats = Z.of_nat k /\
    (Z.of_nat k < Z.of_nat (List.length files)).
Proof.
  intros Hc Hd Hk Hbefore Hx.
  destruct (process_each_stops
              (fun i (fi : file_info) =>
                   process_single_workflow cfg (item_collaborators w i) fi)
              files 0%nat
              (set_pending (mk_stats 0 0 0 0) (Z.of_nat (List.length files)))
              k f e Hk Hbefore Hx) as [tr [stats [E [Hp Hq]]]].
  exists stats.
  assert (Hlt : (k < List.length files)%nat).
  { apply nth_error_Some. rewrite Hk. discriminate. }
  split; [|cbn [pending processed_files set_pending] in Hp, Hq; lia].
  unfold run_local_workflow, local_cycle_body. rewrite Hc, Hd.
  destruct files as [|f0 files']; [simpl in Hlt; lia|].
  cbn [is_empty]. rewrite E. cbn.
  destruct (system_error_notification w) as [[]|e']; cbn;
    rewrite ?app_nil_r, <- ?app_assoc; reflexivity.
Qed.

Lemma local_batch_stops_at_raising_item_witness :
  exists stats,
    outcome (run_local_workflow local_mode second_item_escapes) = Ok stats /\
    pending stats = 3 /\ processed_files stats = 1.
Proof.
  destruct (local_batch_stops_at_raising_item local_mode second_item_escapes
              [a_file; a_file; a_file] 1 a_file "smtp down"
              eq_refl eq_refl eq_refl)
    as [stats [E [Hp [Hq _]]]].
  - intros j y Hj Hy. destruct j as [|j]; [|lia].
    injection Hy as <-. eexists. reflexivity.
  - reflexivity.
  - exists stats. rewrite E. repeat split; assumption.
Defined.

(** ** The lifetime counters and the timing of the scheduler *)

Lemma observe_counters (sch : schedule) (clock : Z) (m : manager) :
  total_processed (observe sch clock m) = total_processed m /\
  total_successful (observe sch clock m) = total_successful m /\
  total_failed (observe sch clock m) = total_failed m.
Proof.
  unfold observe. now destruct (existsb _ (signals sch)).
Qed.

Lemma observe_stopped (sch : schedule) (clock : Z) (m : manager) :
  running m = false -> running (observe sch clock m) = false.
Proof.
  unfold observe. now destruct (existsb _ (signals sch)).
Qed.

Lemma sleep_slices_counters (sch : schedule) (n : nat) :
  forall clock m tr clock' m',
    sleep_slices sch n clock m = (tr, clock', m') ->
    total_processed m' = total_processed m /\
    total_successful m' = total_successful m /\
    total_failed m' = total_failed m.
Proof.
  induction n as [|n IH]; intros clock m tr clock' m' E.
  - simpl in E. now injection E as <- <- <-.
  - cbn [sleep_slices] in E.
    destruct (observe_counters sch clock m) as [Hp [Hs Hf]].
    destruct (running (observe sch clock m)); cbn [negb] in E.
    + destruct (sleep_slices sch n (clock + second) (observe sch clock m))
        as [[tr1 c1] m1] eqn:E1.
      injection E as <- <- <-.
      destruct (IH _ _ _ _ _ E1) as [Hp1 [Hs1 Hf1]].
      repeat split; congruence.
    + injection E as <- <- <-. auto.
Qed.

Lemma inter_cycle_sleep_counters (sch : schedule) (sleep_time clock : Z)
  (m : manager) (tr : list sched_event) (clock' : Z) (m' : manager) :
  inter_cycle_sleep sch sleep_time clock m = (tr, clock', m') ->
  total_processed m' = total_processed m /\
  total_successful m' = total_successful m /\
  total_failed m' = total_failed m.
Proof.
  unfold inter_cycle_sleep. intros E.
  destruct (sleep_slices sch (Z.to_nat (sleep_time / second)) clock m)
    as [[tr1 c1] m1] eqn:E1.
  destruct (sleep_slices_counters sch _ _ _ _ _ _ E1) as [Hp [Hs Hf]].
  destruct (observe_counters sch c1 m1) as [Hp1 [Hs1 Hf1]].
  destruct (running (observe sch c1 m1) && (0 <? sleep_time mod second));
    injection E as <- <- <-; repeat split; congruence.
Qed.

(** One cycle in sheets mode keeps the lifetime counters balanced and
    never lowers them. *)
Lemma run_cycle_sheets_balanced (cfg : config) (w : cycle_env) (m : manager) :
  use_sheets_mode cfg = true ->
  balanced m ->
  balanced (snd (run_cycle cfg w m)) /\
  total_processed m <= total_processed (snd (run_cycle cfg w m)) /\
  total_successful m <= total_successful (snd (run_cycle cfg w m)) /\
  total_failed m <= total_failed (snd (run_cycle cfg w m)).
Proof.
  intros Hm Hb. unfold run_cycle, run_full_workflow. rewrite Hm.
  destruct (run_sheets_workflow_statistics cfg w)
    as [stats [pre [-> [[Hc [Hs Hf]] _]]]].
  unfold balanced in *. simpl. lia.
Qed.

(** The statement of X9 for one run, by induction on the bound. *)
Lemma sheets_run_balanced (cfg : config) (sch : schedule)
  (check_interval : Z) (fuel : nat) :
  use_sheets_mode cfg = true ->
  forall count clock m tr clock' m' stopped,
    balanced m ->
    run_continuous_mode cfg sch check_interval fuel count clock m
    = (tr, clock', m', stopped) ->
    balanced m' /\
    total_processed m <= total_processed m' /\
    total_successful m <= total_successful m' /\
    total_failed m <= total_failed m'.
Proof.
  intros Hm. induction fuel as [|fuel IH];
    intros count clock m tr clock' m' stopped Hb E.
  - simpl in E. injection E as <- <- <- <-. repeat split; (exact Hb || lia).
  - cbn [run_continuous_mode] in E.
    destruct (observe_counters sch clock m) as [Hp0 [Hs0 Hf0]].
    assert (Hb0 : balanced (observe sch clock m))
      by (unfold balanced in *; congruence).
    destruct (running (observe sch clock m)); cbn [negb] in E.
    + destruct (run_cycle_sheets_balanced cfg (cycle_world sch (S count))
                  (observe sch clock m) Hm Hb0) as [Hb1 [Lp1 [Ls1 Lf1]]].
      destruct (run_cycle cfg (cycle_world sch (S count)) (observe sch clock m))
        as [evs m1].
      cbn [snd] in Hb1, Lp1, Ls1, Lf1.
      destruct (observe_counters sch (clock + cycle_duration sch (S count)) m1)
        as [Hp2 [Hs2 Hf2]].
      assert (Hb2 : balanced
                      (observe sch (clock + cycle_duration sch (S count)) m1))
        by (unfold balanced in *; congruence).
      destruct (running (observe sch (clock + cycle_duration sch (S count)) m1));
        cbn [negb] in E.
      * destruct (clock + cycle_duration sch (S count) - clock
                  <? check_interval * second).
        -- destruct (inter_cycle_sleep sch _ _ _) as [[slept c3] m3] eqn:Es.
           destruct (inter_cycle_sleep_counters sch _ _ _ _ _ _ Es)
             as [Hp3 [Hs3 Hf3]].
           assert (Hb3 : balanced m3) by (unfold balanced in *; congruence).
           destruct (run_continuous_mode cfg sch check_interval fuel (S count)
                       c3 m3) as [[[rest c4] m4] st] eqn:Er.
           injection E as <- <- <- <-.
           destruct (IH _ _ _ _ _ _ _ Hb3 Er) as [Hb4 [Lp4 [Ls4 Lf4]]].
           split; [exact Hb4|]. lia.
        -- destruct (run_continuous_mode cfg sch check_interval fuel (S count)
                       (clock + cycle_duration sch (S count))
                       (observe sch (clock + cycle_duration sch (S count)) m1))
             as [[[rest c4] m4] st] eqn:Er.
           injection E as <- <- <- <-.
           destruct (IH _ _ _ _ _ _ _ Hb2 Er) as [Hb4 [Lp4 [Ls4 Lf4]]].
           split; [exact Hb4|]. lia.
      * injection E as <- <- <- <-. split; [exact Hb2|]. lia.
    + injection E as <- <- <- <-. split; [exact Hb0|]. lia.
Qed.

(** X9.  In sheets mode the lifetime counters stay balanced over a whole
    run of the scheduler, [total_processed = total_successful +
    total_failed], and none of them ever decreases: there no cycle raises,
    so the one-failure accounting of a raising cycle never applies. *)
Theorem sheets_mode_counters_balanced (cfg : config) (sch : schedule)
  (check_interval : Z) (fuel count : nat) (clock : Z) (m : manager) :
  use_sheets_mode cfg = true ->
  balanced m ->
  let m' := snd (fst (run_continuous_mode cfg sch check_interval fuel count
                        clock m)) in
  balanced m' /\
  total_processed m <= total_processed m' /\
  total_successful m <= total_successful m' /\
  total_failed m <= total_failed m'.
Proof.
  intros Hm Hb.
  destruct (run_continuous_mode cfg sch check_interval fuel count clock m)
    as [[[tr c'] m1] st] eqn:E.
  exact (sheets_run_balanced cfg sch check_interval fuel Hm _ _ _ _ _ _ _ Hb E).
Qed.

Lemma sheets_mode_counters_balanced_witness :
  use_sheets_mode three_tries = true /\
  balanced new_manager /\
  snd (fst (run_continuous_mode three_tries undisturbed 30 3 0 0 new_manager))
  = mk_manager true 3 3 0.
Proof.
  assert (Hm : use_sheets_mode three_tries = true) by reflexivity.
  assert (Hb : balanced new_manager) by reflexivity.
  pose proof (sheets_mode_counters_balanced three_tries undisturbed 30 3 0 0
                new_manager Hm Hb) as [_ _].
  split; [exact Hm|]. split; [exact Hb|]. vm_compute. reflexivity.
Defined.

Lemma cycle_starts_app (l1 l2 : list sched_event) :
  cycle_starts (l1 ++ l2) = cycle_starts l1 ++ cycle_starts l2.
Proof.
  induction l1 as [|e l1 IH]; [reflexivity|].
  destruct e; simpl; now rewrite IH.
Qed.

(** Without a signal the sliced sleep lasts as long as asked. *)
Lemma sleep_slices_undisturbed (sch : schedule) (n : nat) :
  signals sch = [] ->
  forall clock m, running m = true ->
    exists tr,
      sleep_slices sch n clock m = (tr, clock + Z.of_nat n * second, m) /\
      cycle_starts tr = [].
Proof.
  intros Hs. induction n as [|n IH]; intros clock m Hr.
  - exists []. simpl. split; [|reflexivity]. do 2 f_equal. lia.
  - cbn [sleep_slices].
    rewrite (observe_without_signal sch clock m Hs), Hr. cbn [negb].
    destruct (IH (clock + second) m Hr) as [tr [E Hn]]. rewrite E.
    exists (SleepFor clock second :: tr). split; [|exact Hn].
    do 2 f_equal. lia.
Qed.

Lemma inter_cycle_sleep_undisturbed (sch : schedule) (sleep_time clock : Z)
  (m : manager) :
  signals sch = [] -> running m = true -> 0 <= sleep_time ->
  exists tr,
    inter_cycle_sleep sch sleep_time clock m = (tr, clock + sleep_time, m) /\
    cycle_starts tr = [].
Proof.
  intros Hs Hr Hst. unfold inter_cycle_sleep.
  destruct (sleep_slices_undisturbed sch (Z.to_nat (sleep_time / second)) Hs
              clock m Hr) as [tr [E Hn]].
  rewrite E, (observe_without_signal sch _ m Hs), Hr. cbn [andb].
  assert (Q : 0 <= sleep_time / second) by (apply Z.div_pos; unfold second; lia).
  rewrite Z2Nat.id by exact Q.
  pose proof (Z.div_mod sleep_time second) as DM.
  pose proof (Z.mod_pos_bound sleep_time second) as MB.
  unfold second in *.
  destruct (Z.ltb_spec 0 (sleep_time mod 1000000)) as [L|G].
  - exists (tr ++ [SleepFor (clock + sleep_time / 1000000 * 1000000)
                     (sleep_time mod 1000000)]).
    split; [|rewrite cycle_starts_app, Hn; reflexivity].
    do 2 f_equal. lia.
  - exists tr. split; [|exact Hn]. do 2 f_equal. lia.
Qed.

(** The statement of X10 for any starting point of the loop. *)
Lemma steady_run (cfg : config) (sch : schedule) (check_interval : Z)
  (fuel : nat) :
  signals sch = [] ->
  (forall k, 0 <= cycle_duration sch k < check_interval * second) ->
  forall count clock m, running m = true ->
    exists tr m',
      run_continuous_mode cfg sch check_interval fuel count clock m
      = (tr, clock + Z.of_nat fuel * (check_interval * second), m', false) /\
      running m' = true /\
      cycle_starts tr =
      map (fun i => ((count + 1 + i)%nat,
                     clock + Z.of_nat i * (check_interval * second)))
          (seq 0 fuel).
Proof.
  intros Hs Hd. induction fuel as [|fuel IH]; intros count clock m Hr.
  - exists [], m. simpl. split; [|split; [exact Hr|reflexivity]].
    do 3 f_equal. lia.
  - cbn [run_continuous_mode].
    rewrite (observe_without_signal sch clock m Hs), Hr. cbn [negb].
    pose proof (run_cycle_keeps_running cfg (cycle_world sch (S count)) m) as K.
    destruct (run_cycle cfg (cycle_world sch (S count)) m) as [evs m1].
    cbn [snd] in K. rewrite Hr in K.
    rewrite (observe_without_signal sch _ m1 Hs), K. cbn [negb].
    destruct (Hd (S count)) as [D0 D1].
    replace (clock + cycle_duration sch (S count) - clock
             <? check_interval * second) with true
      by (symmetry; apply Z.ltb_lt; lia).
    destruct (inter_cycle_sleep_undisturbed sch
                (check_interval * second -
                 (clock + cycle_duration sch (S count) - clock))
                (clock + cycle_duration sch (S count)) m1 Hs K)
      as [slept [Es Hn]]; [lia|].
    rewrite Es.
    destruct (IH (S count)
                (clock + cycle_duration sch (S count) +
                 (check_interval * second -
                  (clock + cycle_duration sch (S count) - clock))) m1 K)
      as [rest [m' [Er [Hr' Hc]]]].
    rewrite Er. exists ([CycleStart (S count) clock; CycleRun evs] ++
                        slept ++ rest), m'.
    split; [|split; [exact Hr'|]].
    + do 3 f_equal. lia.
    + rewrite !cycle_starts_app, Hn, Hc. cbn [cycle_starts app seq map].
      f_equal.
      * f_equal; lia.
      * rewrite <- seq_shift, map_map. apply map_ext. intros i.
        f_equal; lia.
Qed.

(** X10.  As long as no signal arrives and every cycle is shorter than
    the check interval, the scheduler keeps a fixed rate: counting the
    time taken by cycles and sleeps, cycle [k] starts exactly
    [(k - 1) * check_interval] seconds after the first one, however long
    the cycles took, and the loop is never left. *)
Theorem steady_schedule (cfg : config) (sch : schedule)
  (check_interval : Z) (fuel : nat) (clock : Z) :
  signals sch = [] ->
  (forall k, 0 <= cycle_duration sch k < check_interval * second) ->
  exists tr m',
    run_continuous_mode cfg sch check_interval fuel 0 clock new_manager
    = (tr, clock + Z.of_nat fuel * (check_interval * second), m', false) /\
    running m' = true /\
    cycle_starts tr =
    map (fun i => (S i, clock + Z.of_nat i * (check_interval * second)))
        (seq 0 fuel).
Proof.
  intros Hs Hd.
  destruct (steady_run cfg sch check_interval fuel Hs Hd 0%nat clock
              new_manager eq_refl) as [tr [m' [E [Hr Hc]]]].
  exists tr, m'. split; [exact E|]. split; [exact Hr|].
  rewrite Hc. apply map_ext. intros i. f_equal; lia.
Qed.

Lemma steady_schedule_witness :
  signals undisturbed = [] /\
  cycle_starts
    (fst (fst (fst (run_continuous_mode three_tries undisturbed 30 3 0 0
                      new_manager))))
  = [(1%nat, 0); (2%nat, 30000000); (3%nat, 60000000)].
Proof.
  split; [reflexivity|].
  destruct (steady_schedule three_tries undisturbed 30 3 0 eq_refl)
    as [tr [m' [E [_ Hc]]]].
  - intros k. simpl. unfold second. lia.
  - rewrite E. exact Hc.
Defined.

(** The sliced sleep either runs to its end or finds the flag cleared. *)
Lemma sleep_slices_progress (sch : schedule) (n : nat) :
  forall clock m tr clock' m',
    sleep_slices sch n clock m = (tr, clock', m') ->
    running m' = false \/ clock' = clock + Z.of_nat n * second.
Proof.
  induction n as [|n IH]; intros clock m tr clock' m' E.
  - simpl in E. injection E as <- <- <-. right. lia.
  - cbn [sleep_slices] in E.
    destruct (running (observe sch clock m)) eqn:R; cbn [negb] in E.
    + destruct (sleep_slices sch n (clock + second) (observe sch clock m))
        as [[tr1 c1] m1] eqn:E1.
      injection E as <- <- <-.
      destruct (IH _ _ _ _ _ E1) as [F|C]; [now left|right]. lia.
    + injection E as <- <- <-. now left.
Qed.

Lemma inter_cycle_sleep_progress (sch : schedule) (sleep_time clock : Z)
  (m : manager) (tr : list sched_event) (clock' : Z) (m' : manager) :
  0 <= sleep_time ->
  inter_cycle_sleep sch sleep_time clock m = (tr, clock', m') ->
  running m' = false \/ clock' = clock + sleep_time.
Proof.
  intros Hst E. unfold inter_cycle_sleep in E.
  destruct (sleep_slices sch (Z.to_nat (sleep_time / second)) clock m)
    as [[tr1 c1] m1] eqn:E1.
  assert (Q : 0 <= sleep_time / second) by (apply Z.div_pos; unfold second; lia).
  pose proof (Z.div_mod sleep_time second) as DM.
  pose proof (Z.mod_pos_bound sleep_time second) as MB.
  destruct (sleep_slices_progress sch _ _ _ _ _ _ E1) as [F|C].
  - rewrite (observe_stopped sch c1 m1 F) in E. cbn [andb] in E.
    injection E as <- <- <-. left. now apply observe_stopped.
  - rewrite Z2Nat.id in C by exact Q. unfold second in *.
    destruct (running (observe sch c1 m1)) eqn:R; cbn [andb] in E.
    + destruct (Z.ltb_spec 0 (sleep_time mod 1000000)) as [L|G];
        injection E as <- <- <-; right; lia.
    + injection E as <- <- <-. now left.
Qed.

(** The statement of X11 for any starting point of the loop. *)
Lemma stopping_run (cfg : config) (sch : schedule) (check_interval T : Z)
  (n : nat) :
  In T (signals sch) -> 0 < check_interval ->
  forall count clock m,
    running m = false \/
    T <= clock + Z.of_nat n * (check_interval * second) ->
    exists tr clock' m',
      run_continuous_mode cfg sch check_interval (S n) count clock m
      = (tr, clock', m', true) /\
      running m' = false.
Proof.
  intros Hin Hci. induction n as [|n IH]; intros count clock m H.
  - cbn [run_continuous_mode].
    assert (R : running (observe sch clock m) = false).
    { destruct H as [F|L]; [now apply observe_stopped|].
      apply (observe_after_signal sch T); [exact Hin|lia]. }
    rewrite R. cbn [negb]. now exists [], clock, (observe sch clock m).
  - remember (S n) as fuel eqn:Hf. cbn [run_continuous_mode].
    destruct (running (observe sch clock m)) eqn:R; cbn [negb];
      [|now exists [], clock, (observe sch clock m)].
    assert (L : T <= clock + Z.of_nat fuel * (check_interval * second)).
    { destruct H as [F|L]; [|subst fuel; exact L].
      rewrite (observe_stopped sch clock m F) in R. discriminate R. }
    destruct (run_cycle cfg (cycle_world sch (S count)) (observe sch clock m))
      as [evs m1].
    destruct (running (observe sch (clock + cycle_duration sch (S count)) m1))
      eqn:R2; cbn [negb]; [|eauto].
    destruct (Z.ltb_spec (clock + cycle_duration sch (S count) - clock)
                (check_interval * second)) as [D|D].
    + destruct (inter_cycle_sleep sch _ _ _) as [[slept c3] m3] eqn:Es.
      assert (P : running m3 = false \/
                  T <= c3 + Z.of_nat n * (check_interval * second)).
      { assert (Hpos : 0 <= check_interval * second -
                             (clock + cycle_duration sch (S count) - clock))
          by lia.
        destruct (inter_cycle_sleep_progress sch _ _ _ _ _ _ Hpos Es)
          as [F|C]; [now left|right].
        subst fuel. rewrite Nat2Z.inj_succ in L. lia. }
      subst fuel.
      destruct (IH (S count) c3 m3 P) as [rest [c4 [m4 [Er F4]]]].
      rewrite Er. eauto.
    + assert (P : running (observe sch (clock + cycle_duration sch (S count))
                             m1) = false \/
                  T <= clock + cycle_duration sch (S count) +
                       Z.of_nat n * (check_interval * second)).
      { right. subst fuel. rewrite Nat2Z.inj_succ in L. unfold second in *.
        nia. }
      subst fuel.
      destruct (IH (S count) _ _ P) as [rest [c4 [m4 [Er F4]]]].
      rewrite Er. eauto.
Qed.

(** X11.  After a termination signal the scheduler loop is left: with a
    positive check interval, a signal delivered at time [T] ends the loop
    within [n + 1] iterations, where [n] check intervals from the start
    reach [T], and [running] is false when it ends. *)
Theorem scheduler_stops_after_signal (cfg : config) (sch : schedule)
  (check_interval T : Z) (n count : nat) (clock : Z) (m : manager) :
  In T (signals sch) -> 0 < check_interval ->
  T <= clock + Z.of_nat n * (check_interval * second) ->
  exists tr clock' m',
    run_continuous_mode cfg sch check_interval (S n) count clock m
    = (tr, clock', m', true) /\
    running m' = false.
Proof.
  intros Hin Hci L.
  apply (stopping_run cfg sch check_interval T n Hin Hci). now right.
Qed.

Lemma scheduler_stops_after_signal_witness :
  In 7500000 (signals signal_during_sleep) /\
  snd (run_continuous_mode three_tries signal_during_sleep 30 2 0 0
         new_manager) = true.
Proof.
  assert (Hin : In 7500000 (signals signal_during_sleep)) by (left; reflexivity).
  destruct (scheduler_stops_after_signal three_tries signal_during_sleep 30
              7500000 1 0 0 new_manager Hin) as [tr [c' [m' [E _]]]].
  - lia.
  - unfold second. simpl. lia.
  - split; [exact Hin|]. rewrite E. reflexivity.
Defined.

(** ** The answers of the push endpoint *)

(** The code path of [handle_payload], branch by branch. *)
Lemma handle_payload_cases (srv : server) (req : request) (now : string) :
  handle_payload srv req now =
  match get_json req with
  | Raise e => ([], Raise e)
  | Ok d =>
    if py_not d
    then ([LogError "Received empty webhook request"],
          Ok (mk_response 400 (error_body "Request content is empty")))
    else
      match missing_from required_fields d with
      | Raise e => ([], Raise e)
      | Ok [] =>
        match workflow_manager srv with
        | None =>
          ([LogError "Workflow manager not configured"],
           Ok (mk_response 503 (error_body "System not ready")))
        | Some _ =>
          match py_getitem d "identifier" with
          | Ok ident =>
            ([StartThread d], Ok (mk_response 202 (accepted_body ident now)))
          | Raise e => ([StartThread d], Raise e)
          end
        end
      | Ok (f :: rest) =>
        ([LogError ("Missing required fields: " ++ list_repr (f :: rest))%string],
         Ok (mk_response 400
               (error_body
                  ("Missing required fields: " ++ list_repr (f :: rest))%string)))
      end
  end.
Proof.
  unfold handle_payload.
  destruct (get_json req) as [d|e]; [|reflexivity]. cbn [lift bind].
  destruct (py_not d); [reflexivity|].
  destruct (missing_from required_fields d) as [[|f rest]|e];
    [|reflexivity|reflexivity].
  cbn [lift bind is_empty negb].
  destruct (workflow_manager srv); [|reflexivity].
  destruct (py_getitem d "identifier"); reflexivity.
Qed.

(** A request that gets past the signature check is handled by
    [handle_payload] inside the [try] of the handler. *)
Lemma handle_post_passes (hmac : string -> string -> string) (srv : server)
  (req : request) (now : string) :
  passes_signature_check hmac srv req ->
  handle_post hmac srv req now =
  try_except (handle_payload srv req now)
    (fun e =>
       emit (LogError ("Error processing webhook request: " ++ e)%string) ;;;
       ret (mk_response 500 (error_body e))).
Proof.
  intros [Off|[s [Hs [Ne Hv]]]]; unfold handle_post.
  - now rewrite Off.
  - rewrite Hs, Ne, Hv. cbn [negb lift bind].
    destruct (handle_payload srv req now) as [tr r]. cbn.
    now destruct (enable_auth srv) as [[|]|].
Qed.

Ltac answer_cases :=
  repeat match goal with
         | |- context [match ?x with _ => _ end] =>
           match type of x with
           | sumbool _ _ => fail 1
           | _ => destruct x eqn:?
           end
         end.

(** What the [try] statement of the handler answers once the signature
    check is passed. *)
Lemma payload_answers (srv : server) (req : request) (now : string) :
  exists tr r,
    try_except (handle_payload srv req now)
      (fun e =>
         emit (LogError ("Error processing webhook request: " ++ e)%string) ;;;
         ret (mk_response 500 (error_body e)))
    = (tr, Ok r) /\
    In (status_code r) [202; 400; 500; 503] /\
    (List.length (threads_started tr) <= 1)%nat.
Proof.
  rewrite handle_payload_cases.
  answer_cases; cbn; do 2 eexists;
    (split; [reflexivity|]); cbn; (split; [intuition|lia]).
Qed.

Lemma handle_post_answers (hmac : string -> string -> string)
  (srv : server) (req : request) (now : string) :
  exists tr r,
    handle_post hmac srv req now = (tr, Ok r) /\
    In (status_code r) [202; 400; 401; 500; 503] /\
    (List.length (threads_started tr) <= 1)%nat.
Proof.
  destruct (payload_answers srv req now) as [tr [r [E [Hs Ht]]]].
  assert (Hs' : In (status_code r) [202; 400; 401; 500; 503])
    by (cbn in *; intuition).
  unfold handle_post.
  destruct (match enable_auth srv with Some b => b | None => true end);
    [|exists tr, r; auto].
  destruct (signature_header req) as [s|].
  - destruct (String.eqb s "").
    + do 2 eexists. split; [reflexivity|]. cbn. split; [intuition|lia].
    + destruct (verify_webhook_signature hmac srv (data req) s) as [[|]|e];
        cbn [lift bind negb].
      * destruct (handle_payload srv req now) as [tp rp].
        exists tr, r. cbn in *. auto.
      * do 2 eexists. split; [reflexivity|]. cbn. split; [intuition|lia].
      * do 2 eexists. split; [reflexivity|]. cbn. split; [intuition|lia].
  - do 2 eexists. split; [reflexivity|]. cbn. split; [intuition|lia].
Qed.

(** X12.  [handle_upload_notification] answers every request: it never
    raises, whatever the body, the signature or the state of the server;
    the status is one of 200, 202, 400, 401, 500 and 503, it is 200 exactly
    for GET, and one request starts at most one processing thread. *)
Theorem handler_always_answers (hmac : string -> string -> string)
  (srv : server) (req : request) (now : string) :
  exists tr r,
    handle_upload_notification hmac srv req now = (tr, Ok r) /\
    In (status_code r) [200; 202; 400; 401; 500; 503] /\
    (List.length (threads_started tr) <= 1)%nat /\
    (status_code r = 200 <-> method req = GET).
Proof.
  unfold handle_upload_notification.
  destruct (handle_post_answers hmac srv req now) as [tr [r [E [Hs Ht]]]].
  assert (N200 : status_code r <> 200).
  { intros H. rewrite H in Hs. cbn in Hs.
    repeat (destruct Hs as [Hs|Hs]; [discriminate Hs|]). exact Hs. }
  destruct (method req).
  - do 2 eexists. split; [reflexivity|]. cbn. intuition.
  - exists tr, r. split; [exact E|]. split; [cbn in *; intuition|].
    split; [exact Ht|]. split; [intros H; now elim N200|discriminate].
  - exists tr, r. split; [exact E|]. split; [cbn in *; intuition|].
    split; [exact Ht|]. split; [intros H; now elim N200|discriminate].
Qed.

Lemma handler_always_answers_witness :
  exists r,
    outcome (handle_upload_notification toy_hmac fresh_server
               (post None upload_payload) "t0") = Ok r /\
    status_code r <> 200.
Proof.
  destruct (handler_always_answers toy_hmac fresh_server
              (post None upload_payload) "t0") as [tr [r [E [_ [_ G]]]]].
  exists r. rewrite E. split; [reflexivity|].
  intros H. apply G in H. discriminate H.
Defined.

(** A 202 comes out of [handle_payload], after a passed signature check. *)
Lemma handle_post_accepted (hmac : string -> string -> string)
  (srv : server) (req : request) (now : string) (tr : list event)
  (r : response) :
  handle_post hmac srv req now = (tr, Ok r) ->
  status_code r = 202 ->
  passes_signature_check hmac srv req /\
  try_except (handle_payload srv req now)
    (fun e =>
       emit (LogError ("Error processing webhook request: " ++ e)%string) ;;;
       ret (mk_response 500 (error_body e)))
  = (tr, Ok r).
Proof.
  unfold handle_post, passes_signature_check. intros E S.
  destruct (enable_auth srv) as [[|]|] eqn:A;
    try (split; [now left|exact E]);
    (destruct (signature_header req) as [s|] eqn:Hh;
     [|cbn in E; injection E as <- <-; discriminate S];
     destruct (String.eqb s "") eqn:Ne;
     [cbn in E; injection E as <- <-; discriminate S|];
     destruct (verify_webhook_signature hmac srv (data req) s) as [[|]|e]
       eqn:V; cbn [lift bind negb] in E;
     [|cbn in E; injection E as <- <-; discriminate S
      |cbn in E; injection E as <- <-; discriminate S];
     split; [right; exists s; auto|];
     destruct (handle_payload srv req now) as [tp rp]; exact E).
Qed.

(** X13.  The converse of the 202 answer: a request is accepted only if it
    is not a GET (it is a POST, or a HEAD that the framework routes to the
    same function), it got past the signature check, a workflow manager is
    wired, and the body is a JSON object holding [identifier], [filename]
    and [row_number]; then exactly one thread was started, for that
    object, and the answer carries its identifier. *)
Theorem accepted_only_complete_objects (hmac : string -> string -> string)
  (srv : server) (req : request) (now : string) (tr : list event)
  (r : response) :
  handle_upload_notification hmac srv req now = (tr, Ok r) ->
  status_code r = 202 ->
  (method req = POST \/ method req = HEAD) /\
  passes_signature_check hmac srv req /\
  workflow_manager srv <> None /\
  exists members ident,
    get_json req = Ok (JObj members) /\
    (forall f, In f required_fields -> lookup f members <> None) /\
    lookup "identifier" members = Some ident /\
    tr = [StartThread (JObj members)] /\
    body r = accepted_body ident now.
Proof.
  unfold handle_upload_notification. intros E S.
  assert (M : (method req = POST \/ method req = HEAD) /\
              handle_post hmac srv req now = (tr, Ok r)).
  { destruct (method req); [|split; [now right|exact E]
                            |split; [now left|exact E]].
    injection E as <- <-. discriminate S. }
  destruct M as [M E0]. split; [exact M|]. clear E.
  destruct (handle_post_accepted hmac srv req now tr r E0 S) as [P E'].
  split; [exact P|]. rewrite handle_payload_cases in E'.
  destruct (get_json req) as [d|e];
    [|cbn in E'; injection E' as <- <-; discriminate S].
  destruct (py_not d);
    [cbn in E'; injection E' as <- <-; discriminate S|].
  destruct (missing_from required_fields d) as [[|f rest]|e] eqn:Mi;
    try (cbn in E'; injection E' as <- <-; discriminate S).
  destruct (workflow_manager srv) as [m|];
    [|cbn in E'; injection E' as <- <-; discriminate S].
  split; [discriminate|].
  destruct d as [| | | |items|members];
    try (cbn in E'; injection E' as <- <-; discriminate S).
  cbn [py_getitem] in E'.
  destruct (lookup "identifier" members) as [ident|] eqn:Li;
    [|cbn in E'; injection E' as <- <-; discriminate S].
  cbn in E'.
  injection E' as <- <-.
  exists members, ident. split; [reflexivity|].
  split; [|split; [exact Li|split; reflexivity]].
  pose proof (lookup_required members) as LR. rewrite Mi in LR.
  intros f Hf Hn.
  destruct Hf as [<-|[<-|[<-|[]]]]; rewrite Hn in LR;
    repeat match type of LR with
           | match ?x with _ => _ end => destruct x
           end;
    match type of LR with
    | ex _ => destruct LR as [? [? LR]]; discriminate LR
    | _ => discriminate LR
    end.
Qed.

Lemma accepted_only_complete_objects_witness :
  workflow_manager wired_server <> None /\
  threads_started
    (trace (handle_upload_notification toy_hmac wired_server
              (post None upload_payload) "t0"))
  = [StartThread upload_payload].
Proof.
  destruct (accepted_only_complete_objects toy_hmac wired_server
              (post None upload_payload) "t0"
              [StartThread upload_payload]
              (mk_response 202 (accepted_body (JStr "ID-7") "t0"))
              eq_refl eq_refl) as [_ [_ [W _]]].
  split; [exact W|reflexivity].
Defined.

(** X14.  A body that is not an object but passes the membership tests (an
    array holding the three field names, or a string containing them) has
    a processing thread started for it before the handler fails on
    [data['identifier']]: the answer is 500, and the thread started only
    logs an error, without calling the orchestrator. *)
Theorem non_object_body_thread_then_500 (hmac : string -> string -> string)
  (srv : server) (req : request) (now : string) (d : json) (m : manager) :
  method req = POST ->
  passes_signature_check hmac srv req ->
  get_json req = Ok d ->
  (forall members, d <> JObj members) ->
  py_not d = false ->
  missing_from required_fields d = Ok [] ->
  workflow_manager srv = Some m ->
  exists msg,
    handle_upload_notification hmac srv req now =
    ([StartThread d;
      LogError ("Error processing webhook request: " ++ msg)%string],
     Ok (mk_response 500 (error_body msg))) /\
    forall cfg env m',
      process_upload_async cfg env m' d =
      (([LogError
           ("Error during asynchronous upload processing: " ++ msg)%string],
        Ok tt), m').
Proof.
  intros Hm Hp Hj Hobj Hn Hmiss Hw.
  unfold handle_upload_notification. rewrite Hm.
  rewrite (handle_post_passes hmac srv req now Hp), handle_payload_cases.
  rewrite Hj, Hn, Hmiss, Hw.
  destruct d as [|b|n|s|items|members];
    try (cbn in Hmiss; discriminate Hmiss).
  - eexists. split; [reflexivity|]. intros cfg env m'. reflexivity.
  - eexists. split; [reflexivity|]. intros cfg env m'. reflexivity.
  - now elim (Hobj members).
Qed.

Lemma non_object_body_thread_then_500_witness :
  method (post None array_payload) = POST /\
  threads_started
    (trace (handle_upload_notification toy_hmac wired_server
              (post None array_payload) "t0"))
  = [StartThread array_payload] /\
  exists b,
    outcome (handle_upload_notification toy_hmac wired_server
               (post None array_payload) "t0")
    = Ok (mk_response 500 b).
Proof.
  destruct (non_object_body_thread_then_500 toy_hmac wired_server
              (post None array_payload) "t0" array_payload new_manager
              eq_refl) as [msg [E _]].
  - left. reflexivity.
  - reflexivity.
  - intros members H. discriminate H.
  - reflexivity.
  - reflexivity.
  - reflexivity.
  - split; [reflexivity|]. rewrite E. split; [reflexivity|].
    now exists (error_body msg).
Defined.

(** X15.  While the signature check is on (the default), a request other
    than GET without a signature, with an empty one, or with one that
    [hmac.compare_digest] finds different is answered 401 after one
    warning; a signature on which [hmac.compare_digest] raises, as it does
    on every header value holding a character that is not ASCII, is
    answered 500 after one error line.  In neither case is the body
    parsed, so the answer does not depend on it, and no thread is
    started. *)
Theorem rejected_signature_answered_401 (hmac : string -> string -> string)
  (srv : server) (req : request) (now : string) :
  method req <> GET ->
  enable_auth srv <> Some false ->
  ((forall s, signature_header req = Some s ->
      s = "" \/ verify_webhook_signature hmac srv (data req) s = Ok false) ->
   exists warning msg,
     forall body_json,
       handle_upload_notification hmac srv
         (mk_request (method req) (signature_header req) (data req) body_json)
         now =
       ([LogWarning warning], Ok (mk_response 401 (error_body msg)))) /\
  (forall s e,
     signature_header req = Some s -> s <> "" ->
     verify_webhook_signature hmac srv (data req) s = Raise e ->
     forall body_json,
       handle_upload_notification hmac srv
         (mk_request (method req) (signature_header req) (data req) body_json)
         now =
       ([LogError ("Error processing webhook request: " ++ e)%string],
        Ok (mk_response 500 (error_body e)))) /\
  (forall s, is_ascii s = false ->
     exists e, verify_webhook_signature hmac srv (data req) s = Raise e).
Proof.
  intros Hm Ha.
  assert (A : match enable_auth srv with Some b => b | None => true end = true).
  { destruct (enable_auth srv) as [[|]|]; try reflexivity. now elim Ha. }
  assert (P : forall body_json,
             handle_upload_notification hmac srv
               (mk_request (method req) (signature_header req) (data req)
                  body_json) now =
             handle_post hmac srv
               (mk_request (method req) (signature_header req) (data req)
                  body_json) now).
  { intros body_json. unfold handle_upload_notification. cbn [method].
    destruct (method req); [now elim Hm|reflexivity|reflexivity]. }
  split; [|split].
  - intros Hs.
    assert (Q : exists warning msg,
               forall body_json,
                 handle_post hmac srv
                   (mk_request (method req) (signature_header req) (data req)
                      body_json) now =
                 ([LogWarning warning],
                  Ok (mk_response 401 (error_body msg)))).
    { unfold handle_post. cbn [signature_header data]. rewrite A.
      destruct (signature_header req) as [s|].
      - destruct (Hs s eq_refl) as [->|V].
        + do 2 eexists. intros body_json. reflexivity.
        + destruct (String.eqb s "").
          * do 2 eexists. intros body_json. reflexivity.
          * rewrite V. do 2 eexists. intros body_json. reflexivity.
      - do 2 eexists. intros body_json. reflexivity. }
    destruct Q as [warning [msg Q]]. exists warning, msg.
    intros body_json. rewrite P. apply Q.
  - intros s e Hh Ne V body_json. rewrite P.
    unfold handle_post. cbn [signature_header data]. rewrite A, Hh.
    destruct (String.eqb_spec s "") as [->|_]; [now elim Ne|].
    rewrite V. reflexivity.
  - intros s Hs. unfold verify_webhook_signature. rewrite Hs, andb_false_r.
    eexists. reflexivity.
Qed.

Lemma rejected_signature_answered_401_witness :
  enable_auth fresh_server <> Some false /\
  outcome (handle_upload_notification toy_hmac
             (set_workflow_manager fresh_server new_manager)
             (post (Some "forged") upload_payload) "t0")
  = Ok (mk_response 401 (error_body "Signature verification failed")) /\
  exists e,
    outcome (handle_upload_notification toy_hmac
               (set_workflow_manager fresh_server new_manager)
               (post (Some latin1_header) upload_payload) "t0")
    = Ok (mk_response 500 (error_body e)).
Proof.
  split; [discriminate|].
  destruct (rejected_signature_answered_401 toy_hmac
              (set_workflow_manager fresh_server new_manager)
              (post (Some "forged") upload_payload) "t0")
    as [Forged _]; [discriminate|discriminate|].
  destruct Forged as [w [msg E]].
  { intros s H. injection H as <-. right. reflexivity. }
  destruct (rejected_signature_answered_401 toy_hmac
              (set_workflow_manager fresh_server new_manager)
              (post (Some latin1_header) upload_payload) "t0")
    as [_ [Raised NonAscii]]; [discriminate|discriminate|].
  destruct (NonAscii latin1_header eq_refl) as [e V].
  split; [reflexivity|]. exists e.
  exact (f_equal snd (Raised latin1_header e eq_refl
                        ltac:(discriminate) V (Ok upload_payload))).
Defined.

(** X16.  Bodies that are not usable: a falsy body ([null], [false], [0],
    the empty string, array or object) is answered 400 "Request content is
    empty", also when it is an object; [true] and non-zero numbers, and a
    body that cannot be parsed, are answered 500.  No thread is started in
    either case. *)
Theorem unusable_body (hmac : string -> string -> string)
  (srv : server) (req : request) (now : string) :
  method req = POST ->
  passes_signature_check hmac srv req ->
  (forall d, get_json req = Ok d -> py_not d = true ->
     handle_upload_notification hmac srv req now =
     ([LogError "Received empty webhook request"],
      Ok (mk_response 400 (error_body "Request content is empty")))) /\
  (forall d, get_json req = Ok d -> py_not d = false ->
     d = JBool true \/ (exists n, d = JNum n) ->
     exists msg,
       handle_upload_notification hmac srv req now =
       ([LogError ("Error processing webhook request: " ++ msg)%string],
        Ok (mk_response 500 (error_body msg)))) /\
  (forall e, get_json req = Raise e ->
     handle_upload_notification hmac srv req now =
     ([LogError ("Error processing webhook request: " ++ e)%string],
      Ok (mk_response 500 (error_body e)))).
Proof.
  intros Hm Hp. unfold handle_upload_notification. rewrite Hm.
  rewrite (handle_post_passes hmac srv req now Hp), handle_payload_cases.
  split; [|split].
  - intros d -> ->. reflexivity.
  - intros d -> Hn [->|[n ->]]; rewrite Hn; eexists; reflexivity.
  - intros e ->. reflexivity.
Qed.

Lemma unusable_body_witness :
  passes_signature_check toy_hmac wired_server (post None (JObj [])) /\
  outcome (handle_upload_notification toy_hmac wired_server
             (post None (JObj [])) "t0")
  = Ok (mk_response 400 (error_body "Request content is empty")) /\
  exists msg,
    outcome (handle_upload_notification toy_hmac wired_server
               (post None (JNum 7)) "t0")
    = Ok (mk_response 500 (error_body msg)).
Proof.
  assert (P : forall d, passes_signature_check toy_hmac wired_server
                          (post None d)) by (intros d; left; reflexivity).
  destruct (unusable_body toy_hmac wired_server (post None (JObj [])) "t0"
              eq_refl (P _)) as [Empty _].
  destruct (unusable_body toy_hmac wired_server (post None (JNum 7)) "t0"
              eq_refl (P _)) as [_ [Scalar _]].
  split; [apply P|]. split.
  - rewrite (Empty (JObj []) eq_refl eq_refl). reflexivity.
  - destruct (Scalar (JNum 7) eq_refl eq_refl) as [msg E];
      [right; now exists 7|].
    exists msg. rewrite E. reflexivity.
Defined.

Lemma missing_from_object (members : list (string * json)) :
  missing_from required_fields (JObj members) = Ok (absent_fields members).
Proof.
  unfold required_fields, absent_fields; cbn [missing_from py_in filter].
  unfold required_fields; cbn [filter].
  destruct (lookup "identifier" members), (lookup "filename" members),
    (lookup "row_number" members); reflexivity.
Qed.

(** X17.  The 400 answer to an object names exactly the required fields
    the object lacks, in the order [identifier], [filename], [row_number],
    in the log and in the answer. *)
Theorem missing_fields_named (hmac : string -> string -> string)
  (srv : server) (req : request) (now : string)
  (members : list (string * json)) :
  method req = POST ->
  passes_signature_check hmac srv req ->
  get_json req = Ok (JObj members) ->
  is_empty members = false ->
  absent_fields members <> [] ->
  handle_upload_notification hmac srv req now =
  ([LogError
      ("Missing required fields: " ++ list_repr (absent_fields members))%string],
   Ok (mk_response 400
         (error_body
            ("Missing required fields: " ++
             list_repr (absent_fields members))%string))).
Proof.
  intros Hm Hp Hj Hne Habs. unfold handle_upload_notification. rewrite Hm.
  rewrite (handle_post_passes hmac srv req now Hp), handle_payload_cases.
  rewrite Hj. cbn [py_not]. rewrite Hne, missing_from_object.
  destruct (absent_fields members) as [|f rest]; [now elim Habs|].
  reflexivity.
Qed.

Lemma missing_fields_named_witness :
  absent_fields [("identifier", JStr "ID-7"); ("row_number", JNum 7)]
  = ["filename"] /\
  outcome (handle_upload_notification toy_hmac wired_server
             (post None payload_without_filename) "t0")
  = Ok (mk_response 400
          (error_body "Missing required fields: ['filename']")).
Proof.
  split; [reflexivity|].
  rewrite (missing_fields_named toy_hmac wired_server
             (post None payload_without_filename) "t0"
             [("identifier", JStr "ID-7"); ("row_number", JNum 7)]
             eq_refl (or_introl eq_refl) eq_refl eq_refl).
  - reflexivity.
  - discriminate.
Defined.

(** X18.  [process_upload_async] never raises.  For an object holding
    [identifier], [filename] and [row_number] it runs the sheets
    orchestrator once, on an application that copies the fields of the
    payload, with the empty string for an absent optional field and for
    the transmission time, and logs an error if the orchestrator reports
    failure.  For any other payload it logs one error and calls no
    collaborator. *)
Theorem push_processing (cfg : config) (env : collaborators) (m : manager)
  (d : json) :
  exists tr,
    process_upload_async cfg env m d = ((tr, Ok tt), m) /\
    match d with
    | JObj members =>
      match lookup "identifier" members, lookup "filename" members,
            lookup "row_number" members with
      | Some ident, Some fname, Some row =>
        exists tr_item ok,
          process_sheets_application cfg env
            (mk_application row
               (field_or_empty "creation_time" members)
               (field_or_empty "hospital_name" members)
               (field_or_empty "exam_type" members)
               (field_or_empty "uploader_name" members)
               (field_or_empty "uploader_phone" members)
               (field_or_empty "uploader_email" members)
               fname ident (JStr ""))
          = (tr_item, Ok ok) /\
          tr = tr_item ++
               (if ok then [] else [LogError "Upload processing failed"])
      | _, _, _ => exists msg, tr = [LogError msg]
      end
    | _ => exists msg, tr = [LogError msg]
    end.
Proof.
  unfold process_upload_async, build_application.
  destruct d as [|b|n|s|items|members];
    try (eexists; split; [reflexivity|]; eexists; reflexivity).
  cbn [py_getitem py_get lift].
  destruct (lookup "identifier" members) as [ident|];
    [|eexists; split; [reflexivity|]; eexists; reflexivity].
  destruct (lookup "row_number" members) as [row|];
    [|destruct (lookup "filename" members);
      eexists; (split; [reflexivity|]); eexists; reflexivity].
  unfold field_or_empty.
  destruct (lookup "creation_time" members), (lookup "hospital_name" members),
    (lookup "exam_type" members), (lookup "uploader_name" members),
    (lookup "uploader_phone" members), (lookup "uploader_email" members);
    (destruct (lookup "filename" members) as [fname|];
     [|eexists; (split; [reflexivity|]); eexists; reflexivity]);
    cbn -[process_sheets_application];
    match goal with
    | |- context [process_sheets_application cfg env ?a] =>
      destruct (process_sheets_application_total cfg env a) as [ok Hok];
      destruct (process_sheets_application cfg env a) as [tr_item o];
      simpl in Hok; subst o
    end;
    destruct ok; cbn -[process_sheets_application];
    eexists; (split; [reflexivity|]); do 2 eexists;
    (split; [reflexivity|]); rewrite ?app_nil_r; reflexivity.
Qed.

(** ** The exit code of a single run *)

(** X19.  [--once] in sheets mode never fails to return an exit code, and
    the code tells how the items ended, not whether the cycle ran: it is 0
    exactly when no item failed, 2 when some failed and some succeeded, 1
    when some failed and none succeeded.  In particular the exit code is 0
    when the destination is unreachable or its probe raises. *)
Theorem once_sheets_exit_code (args : arguments) (cfg : config)
  (w : cycle_env) (long_running : M Z) :
  arg_test_connection args = false ->
  arg_download_only args = false ->
  arg_cleanup_only args = false ->
  arg_once args = true ->
  arg_local_mode args = false ->
  exists tr stats code,
    main args cfg (Ok tt) w long_running = (tr, Ok code) /\
    run_sheets_workflow (with_mode cfg true) w = (tr, Ok stats) /\
    (code = 0 <-> failed_transfers stats = 0) /\
    (code = 1 <->
     0 < failed_transfers stats /\ successful_transfers stats = 0) /\
    (code = 2 <->
     0 < failed_transfers stats /\ 0 < successful_transfers stats) /\
    (test_connection w <> Ok true -> code = 0).
Proof.
  intros Ht Hd Hc Ho Hl. unfold main. rewrite Ht, Hd, Hc, Ho, Hl.
  cbn [negb lift bind app]. unfold run_full_workflow.
  cbn [with_mode use_sheets_mode].
  destruct (run_sheets_workflow_statistics (with_mode cfg true) w)
    as [stats [pre [E [[Hb [Hs Hf]] [_ All]]]]].
  assert (Z0 : test_connection w <> Ok true -> failed_transfers stats = 0).
  { intros Hn. revert E. unfold run_sheets_workflow, sheets_cycle_body.
    destruct (test_connection w) as [[|]|e]; [now elim Hn| |];
      cbn; intros E; injection E as _ <-; reflexivity. }
  unfold with_mode in *. rewrite E. cbn [bind ret try_except].
  rewrite app_nil_r.
  exists (pre ++ [LogStatistics stats]), stats.
  destruct (Z.eqb_spec (failed_transfers stats) 0) as [F0|F1].
  - exists 0. repeat split; try reflexivity; try lia; intros H; lia.
  - destruct (Z.gtb_spec (successful_transfers stats) 0) as [S1|S0].
    + exists 2. repeat split; try reflexivity; try lia; intros H;
        try lia; now elim F1; apply Z0.
    + exists 1. repeat split; try reflexivity; try lia; intros H;
        try lia; now elim F1; apply Z0.
Qed.

Lemma once_sheets_exit_code_witness :
  arg_once once_sheets = true /\
  outcome (main once_sheets three_tries (Ok tt) (unreachable (Ok tt))
             (ret 0)) = Ok 0 /\
  outcome (main once_sheets three_tries (Ok tt) second_item_missing (ret 0))
  = Ok 2.
Proof.
  destruct (once_sheets_exit_code once_sheets three_tries
              (unreachable (Ok tt)) (ret 0)
              eq_refl eq_refl eq_refl eq_refl eq_refl)
    as [tr [stats [code [E [_ [_ [_ [_ U]]]]]]]].
  split; [reflexivity|]. split.
  - rewrite E. simpl. f_equal. apply U. discriminate.
  - vm_compute. reflexivity.
Defined.

(** X20.  [--once] in local mode with an unreachable destination: the
    exit code is 0 when the system notification is delivered and 1 when
    the notifier raises; no pending file is fetched in either case. *)
Theorem once_local_unreachable (args : arguments) (cfg : config)
  (w : cycle_env) (long_running : M Z) :
  arg_test_connection args = false ->
  arg_download_only args = false ->
  arg_cleanup_only args = false ->
  arg_once args = true ->
  arg_local_mode args = true ->
  test_connection w = Ok false ->
  exists msg,
    main args cfg (Ok tt) w long_running =
    ([TestConnection; LogError msg; Notify "System critical error";
      LogStatistics (mk_stats 0 0 0 0)],
     Ok (match system_error_notification w with
         | Ok _ => 0
         | Raise _ => 1
         end)).
Proof.
  intros Ht Hd Hc Ho Hl Hu. unfold main. rewrite Ht, Hd, Hc, Ho, Hl.
  cbn [negb lift bind app]. unfold run_full_workflow.
  cbn [with_mode use_sheets_mode].
  unfold run_local_workflow, local_cycle_body. rewrite Hu.
  destruct (system_error_notification w) as [[]|e]; cbn;
    eexists; reflexivity.
Qed.

Lemma once_local_unreachable_witness :
  test_connection (unreachable (Raise "smtp down")) = Ok false /\
  outcome (main once_local three_tries (Ok tt) (unreachable (Raise "smtp down"))
             (ret 0)) = Ok 1 /\
  outcome (main once_local three_tries (Ok tt) (unreachable (Ok tt)) (ret 0))
  = Ok 0.
Proof.
  destruct (once_local_unreachable once_local three_tries
              (unreachable (Raise "smtp down")) (ret 0)
              eq_refl eq_refl eq_refl eq_refl eq_refl eq_refl) as [msg E].
  destruct (once_local_unreachable once_local three_tries
              (unreachable (Ok tt)) (ret 0)
              eq_refl eq_refl eq_refl eq_refl eq_refl eq_refl) as [msg' E'].
  split; [reflexivity|]. rewrite E, E'. split; reflexivity.
Defined.

(** X21.  The one-shot switches of [main], in their order of precedence.
    A failing constructor exits 1 before any collaborator is called.
    [--test-connection] wins over the other switches and exits 0 exactly
    when the probe returns true (1 when it returns false or raises);
    [--download-only] exits 0 unless fetching raises; [--cleanup-only]
    always exits 0, also when the clean-up raised. *)
Theorem one_shot_switches (args : arguments) (cfg : config)
  (constructed : result unit) (w : cycle_env) (long_running : M Z) :
  (forall e, constructed = Raise e ->
     main args cfg constructed w long_running = ([], Ok 1)) /\
  (constructed = Ok tt ->
   (arg_test_connection args = true ->
    main args cfg constructed w long_running =
    ([TestConnection],
     Ok (match test_connection w with Ok true => 0 | _ => 1 end))) /\
   (arg_test_connection args = false -> arg_download_only args = true ->
    main args cfg constructed w long_running =
    ([DownloadPendingFiles],
     Ok (match download_pending_files w with Ok _ => 0 | Raise _ => 1 end))) /\
   (arg_test_connection args = false -> arg_download_only args = false ->
    arg_cleanup_only args = true ->
    main args cfg constructed w long_running =
    (trace (cleanup_old_files w), Ok 0))).
Proof.
  split.
  - intros e ->. reflexivity.
  - intros ->. unfold main. split; [|split].
    + intros ->. cbn. destruct (test_connection w) as [[|]|e]; reflexivity.
    + intros -> ->. cbn.
      destruct (download_pending_files w) as [files|e]; reflexivity.
    + intros -> -> ->. cbn [lift bind app]. unfold cleanup_old_files.
      destruct (has_clean_downloads w); cbn;
        [destruct (clean_downloads w) as [[]|e]; cbn|];
        destruct (cleanup_work_directory w) as [[]|e']; reflexivity.
Qed.

Lemma one_shot_switches_witness :
  outcome (main (mk_arguments true true true true false) three_tries (Ok tt)
             (unreachable (Ok tt)) (ret 0)) = Ok 1 /\
  outcome (main (mk_arguments false false true true false) three_tries (Ok tt)
             (mk_cycle_env (Ok true) (Ok []) (Ok []) (fun _ => healthy) true
                (Raise "busy") (Ok tt) (Ok tt)) (ret 0)) = Ok 0.
Proof.
  destruct (one_shot_switches (mk_arguments true true true true false)
              three_tries (Ok tt) (unreachable (Ok tt)) (ret 0))
    as [_ Sw].
  destruct (Sw eq_refl) as [Probe _].
  destruct (one_shot_switches (mk_arguments false false true true false)
              three_tries (Ok tt)
              (mk_cycle_env (Ok true) (Ok []) (Ok []) (fun _ => healthy) true
                 (Raise "busy") (Ok tt) (Ok tt)) (ret 0))
    as [_ Sw'].
  destruct (Sw' eq_refl) as [_ [_ Clean]].
  rewrite (Probe eq_refl), (Clean eq_refl eq_refl eq_refl).
  split; reflexivity.
Defined.

(** ** The source of an item is kept until its send is satisfied *)

Lemma deletions_app (l1 l2 : list event) :
  deletions (l1 ++ l2) = (deletions l1 + deletions l2)%nat.
Proof. unfold deletions. now rewrite filter_app, length_app. Qed.

Lemma deletions_cons (e : event) (l : list event) :
  deletions (e :: l) =
  ((if is_source_delete e then 1 else 0) + deletions l)%nat.
Proof. unfold deletions. simpl. now destruct (is_source_delete e). Qed.

Lemma deletions_logs (logs : list event) :
  forallb is_log logs = true -> deletions logs = 0%nat.
Proof.
  unfold deletions. induction logs as [|e logs IH]; simpl; [reflexivity|].
  intros H. apply andb_prop in H as [He Hl].
  destruct e; try discriminate He; simpl; auto.
Qed.

Lemma attempt_event_not_delete (p : path) (cfg : config) (a : Z) :
  is_source_delete (attempt_event p cfg a) = false.
Proof. destruct p; simpl; [destruct (use_orthanc cfg)|]; reflexivity. Qed.

Lemma retry_loop_no_deletion (p : path) (cfg : config)
  (env : collaborators) (n : nat) :
  forall a, deletions (trace (retry_loop p cfg env n a)) = 0%nat.
Proof.
  induction n as [|n IH]; intros a.
  - rewrite retry_loop_exhausted. reflexivity.
  - pose proof (retry_loop_step p cfg env n a) as St.
    assert (Single : deletions [attempt_event p cfg a] = 0%nat).
    { rewrite deletions_cons, attempt_event_not_delete. reflexivity. }
    destruct (transmit_oracle p cfg env a) as [r|e];
      [destruct (path_verdict p r) as [v|e]; [destruct (satisfied v)|]|];
      try (rewrite St; exact Single).
    destruct St as [logs [Hl [[St _]|[_ [e [_ St]]]]]]; rewrite St;
      unfold trace at 1, fst; rewrite deletions_cons, attempt_event_not_delete.
    + rewrite !deletions_app, (deletions_logs logs Hl), IH.
      now destruct ((a <? max_retry_attempts cfg - 1) && waits_after p v).
    + now rewrite (deletions_logs logs Hl).
Qed.

Lemma send_loop_no_deletion (p : path) (cfg : config) (env : collaborators) :
  deletions (trace (send_loop p cfg env)) = 0%nat.
Proof. rewrite send_loop_retry_loop. apply retry_loop_no_deletion. Qed.

Ltac dead_end HL :=
  repeat (cbn -[send_loop deletions];
          try match goal with
              | env : collaborators |- _ => oracle_cases env
              end);
  cbn -[deletions];
  let H := fresh "H" in
  intros [H|H];
  [ exfalso; apply H;
    rewrite ?deletions_cons, ?deletions_app, ?HL; reflexivity
  | discriminate H ].

Lemma sheets_item_reaches_housekeeping (cfg : config) (env : collaborators)
  (app : application) :
  deletions (trace (process_sheets_application cfg env app)) <> 0%nat \/
  outcome (process_sheets_application cfg env app) = Ok true ->
  send_satisfied SheetsPath cfg env /\
  exists b, update_transmission_time env = Ok b.
Proof.
  pose proof (send_loop_no_deletion SheetsPath cfg env) as HL.
  unfold send_satisfied, fetched, transformed.
  unfold process_sheets_application.
  destruct (find_file_in_drive env) as [fid|e]; [|dead_end HL]. step.
  destruct (truthy fid) eqn:Tf; [|dead_end HL]. step.
  destruct (download_file_from_drive env) as [lp|e]; [|dead_end HL]. step.
  destruct (truthy lp) eqn:Tl; [|dead_end HL]. step.
  destruct (create_file_info_for_processing env) as [[]|e]; [|dead_end HL].
  step.
  destruct (process_file env) as [pr|e]; [|dead_end HL]. step.
  destruct (success pr) eqn:Sp; [|dead_end HL]. step.
  destruct (is_empty (processed_paths pr)) eqn:Pp; [dead_end HL|]. step.
  destruct (send_loop SheetsPath cfg env) as [tl [[|]|e]];
    unfold trace in HL; simpl in HL; [|dead_end HL|dead_end HL].
  unfold sheets_after_send. step.
  destruct (update_transmission_time env) as [b|e]; [|dead_end HL].
  intros _. split; [|now exists b].
  split; [exists fid, lp; auto|]. split; [exists pr; auto|reflexivity].
Qed.

Lemma local_item_reaches_housekeeping (cfg : config) (env : collaborators)
  (fi : file_info) :
  deletions (trace (process_single_workflow cfg env fi)) <> 0%nat \/
  outcome (process_single_workflow cfg env fi) = Ok true ->
  send_satisfied LocalPath cfg env /\
  complete_transfer_process env = Ok true.
Proof.
  pose proof (send_loop_no_deletion LocalPath cfg env) as HL.
  unfold send_satisfied, transformed.
  unfold process_single_workflow.
  destruct (process_file env) as [pr|e]; [|dead_end HL]. step.
  destruct (success pr) eqn:Sp; [|dead_end HL]. step.
  destruct (is_empty (processed_paths pr)) eqn:Pp; [dead_end HL|]. step.
  destruct (send_loop LocalPath cfg env) as [tl [[|]|e]];
    unfold trace in HL; simpl in HL; [|dead_end HL|dead_end HL].
  unfold local_after_send. step.
  destruct (complete_transfer_process env) as [[|]|e];
    [|dead_end HL|dead_end HL].
  intros _. split; [|reflexivity].
  split; [exact I|]. split; [exists pr; auto|reflexivity].
Qed.

(** X22.  The source of an item is deleted only after its send was
    satisfied: on the sheets/push path the Drive file only once the item
    was fetched, transformed and sent and [update_transmission_time] has
    returned; on the local path the monitored file only once
    [complete_transfer_process] has reported success.  The same conditions
    are necessary for the item to be reported a success. *)
Theorem source_kept_until_send_satisfied (cfg : config)
  (env : collaborators) (app : application) (fi : file_info) :
  (deletions (trace (process_sheets_application cfg env app)) <> 0%nat ->
   send_satisfied SheetsPath cfg env /\
   exists b, update_transmission_time env = Ok b) /\
  (outcome (process_sheets_application cfg env app) = Ok true ->
   send_satisfied SheetsPath cfg env /\
   exists b, update_transmission_time env = Ok b) /\
  (deletions (trace (process_single_workflow cfg env fi)) <> 0%nat ->
   send_satisfied LocalPath cfg env /\
   complete_transfer_process env = Ok true) /\
  (outcome (process_single_workflow cfg env fi) = Ok true ->
   send_satisfied LocalPath cfg env /\
   complete_transfer_process env = Ok true).
Proof.
  split; [|split; [|split]]; intros H.
  - apply (sheets_item_reaches_housekeeping cfg env app). now left.
  - apply (sheets_item_reaches_housekeeping cfg env app). now right.
  - apply (local_item_reaches_housekeeping cfg env fi). now left.
  - apply (local_item_reaches_housekeeping cfg env fi). now right.
Qed.

Lemma source_kept_until_send_satisfied_witness :
  deletions (trace (process_sheets_application three_tries third_try_passes
                      an_application)) = 1%nat /\
  outcome (send_loop SheetsPath three_tries third_try_passes) = Ok true.
Proof.
  destruct (source_kept_until_send_satisfied three_tries third_try_passes
              an_application a_file) as [Del _].
  split; [reflexivity|].
  destruct Del as [[_ [_ Sent]] _]; [|exact Sent].
  vm_compute. discriminate.
Defined.

(** X23.  On the sheets/push path an item whose send was satisfied is
    still reported a failure when a later step raises: when
    [update_transmission_time] raises, the Drive file is kept; when
    [cleanup_local_file] raises, the transmission time was already
    recorded and the deletion of the Drive file already requested. *)
Theorem failure_after_satisfied_send (cfg : config) (env : collaborators)
  (app : application) :
  send_satisfied SheetsPath cfg env ->
  (forall e, update_transmission_time env = Raise e ->
     outcome (process_sheets_application cfg env app) = Ok false /\
     deletions (trace (process_sheets_application cfg env app)) = 0%nat) /\
  (forall b e,
     update_transmission_time env = Ok b ->
     cleanup_local_file env = Raise e ->
     outcome (process_sheets_application cfg env app) = Ok false /\
     deletions (trace (process_sheets_application cfg env app)) = 1%nat /\
     In UpdateTransmissionTime
        (trace (process_sheets_application cfg env app))).
Proof.
  intros [[fid [lp [Hf [Tf [Hd [Tl Hc]]]]]] [[pr [Hp [Sp Pp]]] Hs]].
  pose proof (send_loop_no_deletion SheetsPath cfg env) as HL.
  unfold process_sheets_application.
  rewrite Hf. step. rewrite Tf. step. rewrite Hd. step. rewrite Tl. step.
  rewrite Hc. step. rewrite Hp. step. rewrite Sp. step. rewrite Pp. step.
  destruct (send_loop SheetsPath cfg env) as [tl o].
  unfold trace, outcome in HL, Hs. simpl in HL, Hs. subst o.
  unfold sheets_after_send, _delete_drive_file_with_user_auth. split.
  - intros e ->. cbn -[deletions]. split; [reflexivity|].
    rewrite ?deletions_cons, ?deletions_app, ?HL. reflexivity.
  - intros b e -> ->.
    destruct b, (delete_drive_file_with_user_auth env) as [[]|e'];
      cbn -[deletions]; (split; [reflexivity|]);
      (split;
       [rewrite ?deletions_cons, ?deletions_app, ?HL; reflexivity
       |rewrite ?in_app_iff; cbn; auto 12]).
Qed.

Lemma failure_after_satisfied_send_witness :
  send_satisfied SheetsPath three_tries cleanup_raises /\
  outcome (process_sheets_application three_tries cleanup_raises
             an_application) = Ok false /\
  deletions (trace (process_sheets_application three_tries cleanup_raises
                      an_application)) = 1%nat.
Proof.
  assert (S : send_satisfied SheetsPath three_tries cleanup_raises).
  { split; [|split].
    - exists (Some "drive-id"), (Some "downloads/a.zip"). repeat split.
    - exists two_files. repeat split.
    - reflexivity. }
  destruct (failure_after_satisfied_send three_tries cleanup_raises
              an_application S) as [_ Late].
  destruct (Late true "file in use" eq_refl eq_refl) as [Ho [Hd _]].
  split; [exact S|]. split; [exact Ho|exact Hd].
Defined.
